(** * Keyset pagination over an aggregation pipeline

    A shallow embedding of [aggregatePaginated] (src/aggregate-paginated.ts)
    and of the helpers it imports from [./utils], followed by the properties
    of the connection result it assembles. *)

From Stdlib Require Import ZArith NArith List String Ascii Bool Lia Sorted.
From Stdlib Require Import DecimalString DecimalZ.
Import ListNotations.

Local Open Scope string_scope.
Local Open Scope list_scope.
Local Open Scope Z_scope.

(** ** Data model *)

(** Field values of a document: the heterogeneous types a sort field can
    hold (null, booleans, numbers, strings, dates, identifiers).  Numbers
    are the integral ones. *)
Inductive Value : Type :=
| VNull
| VBool (b : bool)
| VNum (n : Z)
| VStr (s : string)
| VDate (ms : Z)
| VId (hex : string).

(** [BaseDocument]: a JS object, its fields in insertion order. *)
Definition Document : Type := list (string * Value).

(** [_get(document, key)]: the first binding of [key], [undefined] if none. *)
Fixpoint get (document : Document) (key : string) : option Value :=
  match document with
  | [] => None
  | (k, v) :: rest => if String.eqb k key then Some v else get rest key
  end.

(** A sort direction, [1] or [-1] in the source. *)
Inductive Direction : Type := Asc | Desc.

Definition directionValue (d : Direction) : Z :=
  match d with Asc => 1 | Desc => -1 end.

(** [Sort]: an object whose key order is the tie-break precedence. *)
Definition Sort : Type := list (string * Direction).

(** [CursorObject]: the decoded cursor, one value per sort field. *)
Definition CursorObject : Type := list (string * Value).

(** The conditions a [$match] document puts on one field. *)
Inductive Cond : Type :=
| CEq (v : Value)
| CGt (v : Value)
| CLt (v : Value).

(** A [$match] document: either a plain object of field conditions (all
    of them must hold; [{}] is [QFields []]) or an [$or] of such objects. *)
Inductive Query : Type :=
| QFields (conds : list (string * Cond))
| QOr (alternatives : list (list (string * Cond))).

(** Aggregation stages: the four the paginator appends, and any other
    stage a caller may put in its pipeline. *)
Inductive Stage : Type :=
| SMatch (q : Query)
| SSkip (n : Z)
| SSort (s : Sort)
| SLimit (n : Z)
| SOther (operator : string) (argument : Value).

(** [{ ...pipeline }]: spreading an array into an object literal gives
    one property per index, in index order. *)
Fixpoint spreadFrom {A : Type} (i : nat) (l : list A) : list (nat * A) :=
  match l with
  | [] => []
  | x :: rest => (i, x) :: spreadFrom (S i) rest
  end.

Definition spread {A : Type} (l : list A) : list (nat * A) := spreadFrom 0 l.

(** The argument of [countDocuments]: [{ filters: { ...pipeline } }]. *)
Record CountFilter : Type := mkCountFilter { filters : list (nat * Stage) }.

(** The two methods of the driver's [Collection] that the paginator
    calls.  [None] is a rejected promise. *)
Record Collection : Type := mkCollection {
  countDocuments : CountFilter -> option N;
  aggregate : list Stage -> option (list Document)
}.

(** The requests a call issues to the collection, in issue order. *)
Inductive Request : Type :=
| ReqCountDocuments (filter : CountFilter)
| ReqAggregate (stages : list Stage).

Module Params.
(** [AggregatePaginatedParams]; [None] is [null] or [undefined], and the
    numbers are integral. *)
Record t : Type := mk {
  first : option Z;
  after : option string;
  last : option Z;
  skip : option Z;
  before : option string;
  pipeline : list Stage;
  sort : option Sort
}.
End Params.

Module DirectionParams.
(** The argument object of [normalizeDirectionParams]. *)
Record t : Type := mk {
  first : option Z;
  after : option string;
  last : option Z;
  before : option string;
  sort : Sort
}.
End DirectionParams.

Module Normalized.
(** The object [normalizeDirectionParams] returns. *)
Record t : Type := mk {
  limit : Z;
  cursor : option CursorObject;
  sort : Sort;
  paginatingBackwards : bool
}.
End Normalized.

Module Edge.
Record t : Type := mk { cursor : string; node : Document }.
End Edge.

Module PageInfo.
Record t : Type := mk {
  count : N;
  totalCount : N;
  startCursor : option string;
  endCursor : option string;
  hasPreviousPage : bool;
  hasNextPage : bool
}.
End PageInfo.

(** [AggregatePaginatedResult] *)
Record AggregatePaginatedResult : Type := mkResult {
  edges : list Edge.t;
  pageInfo : PageInfo.t
}.

(** ** JavaScript primitives used by the paginator *)

(** [array[i]] for an integral [i]: [undefined] out of range. *)
Definition index {A : Type} (array : list A) (i : Z) : option A :=
  if i <? 0 then None else nth_error array (Z.to_nat i).

(** [array.slice(0, e)]: a negative [e] counts from the end. *)
Definition slice0 {A : Type} (array : list A) (e : Z) : list A :=
  if e <? 0
  then firstn (Z.to_nat (Z.of_nat (List.length array) + e)) array
  else firstn (Z.to_nat e) array.

(** [Boolean(x)] for an object or [undefined]. *)
Definition BooleanObject {A : Type} (x : option A) : bool :=
  match x with Some _ => true | None => false end.

(** [Boolean(s)] for a string, [null] or [undefined]: the empty string
    is falsy. *)
Definition BooleanString (s : option string) : bool :=
  match s with
  | Some s' => negb (String.eqb s' EmptyString)
  | None => false
  end.

(** [x ?? d] *)
Definition nullish {A : Type} (x : option A) (d : A) : A :=
  match x with Some a => a | None => d end.

(** [n || 0] on a count. *)
Definition orZero (n : N) : N := if N.eqb n 0 then 0%N else n.

(** ** The paginator *)

Section Paginator.

(** The helpers imported from [./utils]; [normalizeDirectionParams]
    decodes the cursor it is given, and throws ([None]) when that is
    malformed. *)
Variable normalizeDirectionParams : DirectionParams.t -> option Normalized.t.
Variable buildQueryFromCursor : Sort -> CursorObject -> Query.
Variable buildCursor : Document -> Sort -> CursorObject.
Variable encodeCursor : CursorObject -> string.

(** The argument object passed to [normalizeDirectionParams]; an absent
    [sort] defaults to [{}]. *)
Definition directionParams (params : Params.t) : DirectionParams.t :=
  DirectionParams.mk (Params.first params) (Params.after params)
    (Params.last params) (Params.before params)
    (nullish (Params.sort params) []).

(** The filter handed to [countDocuments]. *)
Definition countFilter (pipeline : list Stage) : CountFilter :=
  mkCountFilter (spread pipeline).

(** The [$match] stage: the cursor object, when there is one, is truthy. *)
Definition matchStage (n : Normalized.t) : Stage :=
  SMatch (match Normalized.cursor n with
          | Some cursor => buildQueryFromCursor (Normalized.sort n) cursor
          | None => QFields []
          end).

(** The stage list handed to [aggregate]. *)
Definition dataPipeline (pipeline : list Stage) (skip : option Z)
    (n : Normalized.t) : list Stage :=
  pipeline ++
  [ matchStage n;
    SSkip (nullish skip 0);
    SSort (Normalized.sort n);
    SLimit (Normalized.limit n + 1) ].

Definition extraDocument (allDocuments : list Document) (limit : Z)
    : option Document :=
  index allDocuments limit.

Definition hasMore (allDocuments : list Document) (limit : Z) : bool :=
  BooleanObject (extraDocument allDocuments limit).

(** [allDocuments.slice(0, limit)], reversed in place when paginating
    backwards. *)
Definition desiredDocuments (allDocuments : list Document) (limit : Z)
    (paginatingBackwards : bool) : list Document :=
  let sliced := slice0 allDocuments limit in
  if paginatingBackwards then rev sliced else sliced.

Definition buildEdges (documents : list Document) (sort : Sort)
    : list Edge.t :=
  map (fun document =>
         Edge.mk (encodeCursor (buildCursor document sort)) document)
      documents.

(** Everything after the two awaited queries. *)
Definition assemble (params : Params.t) (n : Normalized.t) (count : N)
    (allDocuments : list Document) : AggregatePaginatedResult :=
  let limit := Normalized.limit n in
  let paginatingBackwards := Normalized.paginatingBackwards n in
  let hasMore := hasMore allDocuments limit in
  let desiredDocuments :=
    desiredDocuments allDocuments limit paginatingBackwards in
  let edges := buildEdges desiredDocuments (Normalized.sort n) in
  mkResult edges
    (PageInfo.mk
       (N.of_nat (List.length desiredDocuments))
       (orZero count)
       (option_map Edge.cursor (index edges 0))
       (option_map Edge.cursor
          (index edges (Z.of_nat (List.length edges) - 1)))
       (if paginatingBackwards
        then hasMore else BooleanString (Params.after params))
       (if paginatingBackwards
        then BooleanString (Params.before params) else hasMore)).

(** [aggregatePaginated]: the requests issued to the collection, and the
    value the returned promise resolves to ([None] when it rejects).
    Both queries are issued before either is awaited. *)
Definition aggregatePaginated (collection : Collection) (params : Params.t)
    : list Request * option AggregatePaginatedResult :=
  match normalizeDirectionParams (directionParams params) with
  | None => ([], None)
  | Some n =>
      let filter := countFilter (Params.pipeline params) in
      let stages :=
        dataPipeline (Params.pipeline params) (Params.skip params) n in
      ([ReqCountDocuments filter; ReqAggregate stages],
       match countDocuments collection filter,
             aggregate collection stages with
       | Some count, Some allDocuments =>
           Some (assemble params n count allDocuments)
       | _, _ => None
       end)
  end.

Definition requests (collection : Collection) (params : Params.t)
    : list Request :=
  fst (aggregatePaginated collection params).

Definition result (collection : Collection) (params : Params.t)
    : option AggregatePaginatedResult :=
  snd (aggregatePaginated collection params).

End Paginator.

(** ** What the collection does with a sort and a match document *)

Section Ordering.

(** The store's comparison of two field values. *)
Variable compareValues : Value -> Value -> comparison.

(** A field missing from a document sorts and matches as [null]. *)
Definition field (document : Document) (key : string) : Value :=
  nullish (get document key) VNull.

(** Comparison of two documents on one field: a descending field
    compares them the other way round. *)
Definition compareField (key : string) (d : Direction) (a b : Document)
    : comparison :=
  match d with
  | Asc => compareValues (field a key) (field b key)
  | Desc => compareValues (field b key) (field a key)
  end.

(** [$sort]: lexicographic comparison, first field first. *)
Fixpoint sortCompare (sort : Sort) (a b : Document) : comparison :=
  match sort with
  | [] => Eq
  | (key, d) :: rest =>
      match compareField key d a b with
      | Eq => sortCompare rest a b
      | c => c
      end
  end.

(** [a] may come before [b] in a list sorted by [sort]. *)
Definition sortLeb (sort : Sort) (a b : Document) : bool :=
  match sortCompare sort a b with Gt => false | _ => true end.

(** Every document is followed by one it may come before. *)
Fixpoint sortedBy (sort : Sort) (documents : list Document) : bool :=
  match documents with
  | [] => true
  | a :: rest =>
      match rest with
      | [] => true
      | b :: _ => sortLeb sort a b && sortedBy sort rest
      end
  end.

Definition condHolds (c : Cond) (v : Value) : bool :=
  match c with
  | CEq w => match compareValues v w with Eq => true | _ => false end
  | CGt w => match compareValues v w with Gt => true | _ => false end
  | CLt w => match compareValues v w with Lt => true | _ => false end
  end.

Definition fieldsHold (conds : list (string * Cond)) (document : Document)
    : bool :=
  forallb (fun kc => condHolds (snd kc) (field document (fst kc))) conds.

(** [$match] *)
Definition matches (q : Query) (document : Document) : bool :=
  match q with
  | QFields conds => fieldsHold conds document
  | QOr alternatives =>
      existsb (fun conds => fieldsHold conds document) alternatives
  end.

End Ordering.

(** ** The helpers of [./utils] *)

Module Utils.

(** Modelled from the spec: the direction inversion of 4.2 step 4, done
    inside [normalizeDirectionParams], whose definition is missing; every
    field keeps its place and gets the opposite direction. *)
Definition invertDirection (d : Direction) : Direction :=
  match d with Asc => Desc | Desc => Asc end.

(** Modelled from the spec: the inverted sort of 4.2 step 4. *)
Definition invertSort (sort : Sort) : Sort :=
  map (fun kd => (fst kd, invertDirection (snd kd))) sort.

(** Modelled from the spec: the tie-break of section 3 and 4.2 step 5,
    also inside [normalizeDirectionParams]; a stable identifier field is
    appended when the sort does not have it. *)
Definition tieBreakField : string := "_id".

Definition hasField (sort : Sort) (key : string) : bool :=
  existsb (fun kd => String.eqb (fst kd) key) sort.

(** Modelled from the spec: 4.2 step 5. *)
Definition withTieBreak (d : Direction) (sort : Sort) : Sort :=
  if hasField sort tieBreakField then sort
  else sort ++ [(tieBreakField, d)].

(** Modelled from the spec: the definition of [buildCursor] is missing;
    section 3 makes a position the mapping from each field of the
    active SortSpec to the value of that field in the document. *)
Definition buildCursor (document : Document) (sort : Sort) : CursorObject :=
  map (fun kd => (fst kd, field document (fst kd))) sort.

(** Modelled from the spec: the alternatives of the range predicate of
    4.3, part of the missing [buildQueryFromCursor]: for every sort field
    in order, "all earlier fields equal their cursor value and this field
    is strictly greater (ascending) or smaller (descending)". *)
Fixpoint alternativesFrom (earlier : list (string * Cond)) (sort : Sort)
    (cursor : CursorObject) : list (list (string * Cond)) :=
  match sort with
  | [] => []
  | (key, d) :: rest =>
      let v := field cursor key in
      (earlier ++ [(key, match d with Asc => CGt v | Desc => CLt v end)])
      :: alternativesFrom (earlier ++ [(key, CEq v)]) rest cursor
  end.

(** Modelled from the spec: the definition of [buildQueryFromCursor] is
    missing; the range predicate of 4.3, "strictly after this position
    under this sort order". *)
Definition buildQueryFromCursor (sort : Sort) (cursor : CursorObject)
    : Query :=
  QOr (alternativesFrom [] sort cursor).

(** *** The cursor codec

    Sections 3 and 4.1 of the spec ask for a reversible, stable, URL-safe
    encoding of the ordered field-to-value mapping, such as base64 over
    an ordered key-value encoding.  Here the position is written as text,
    entry after entry in its own order, and the bytes of that text are
    written in the URL-safe base64 alphabet, without padding. *)

Definition quote : ascii :=
  Ascii false true false false false true false false.

Definition backslash : ascii :=
  Ascii false false true true true false true false.

(** A quote or a backslash inside a text is preceded by a backslash. *)
Fixpoint escape (s : string) : string :=
  match s with
  | EmptyString => EmptyString
  | String c rest =>
      if Ascii.eqb c quote || Ascii.eqb c backslash
      then String backslash (String c (escape rest))
      else String c (escape rest)
  end.

Definition quoted (s : string) : string :=
  String quote (escape s ++ String quote EmptyString).

(** Reads an escaped text up to its closing quote; returns the text and
    what follows the quote. *)
Fixpoint readUntilQuote (s : string) : option (string * string) :=
  match s with
  | EmptyString => None
  | String c rest =>
      if Ascii.eqb c quote then Some (EmptyString, rest)
      else if Ascii.eqb c backslash then
        match rest with
        | EmptyString => None
        | String c' rest' =>
            match readUntilQuote rest' with
            | Some (body, tail) => Some (String c' body, tail)
            | None => None
            end
        end
      else
        match readUntilQuote rest with
        | Some (body, tail) => Some (String c body, tail)
        | None => None
        end
  end.

Definition readQuoted (s : string) : option (string * string) :=
  match s with
  | EmptyString => None
  | String c rest => if Ascii.eqb c quote then readUntilQuote rest else None
  end.

Definition printZ (n : Z) : string := NilZero.string_of_int (Z.to_int n).

Definition parseZ (s : string) : option Z :=
  option_map Z.of_int (NilZero.int_of_string s).

(** One letter per type of value, then the value as a quoted text. *)
Definition valueTag (v : Value) : ascii :=
  match v with
  | VNull => "z"
  | VBool _ => "b"
  | VNum _ => "n"
  | VStr _ => "s"
  | VDate _ => "d"
  | VId _ => "i"
  end%char.

Definition valuePayload (v : Value) : string :=
  match v with
  | VNull => EmptyString
  | VBool b => if b then "1" else "0"
  | VNum n => printZ n
  | VStr s => s
  | VDate ms => printZ ms
  | VId hex => hex
  end.

Definition readValue (tag : ascii) (payload : string) : option Value :=
  if Ascii.eqb tag "z" then
    if String.eqb payload EmptyString then Some VNull else None
  else if Ascii.eqb tag "b" then
    if String.eqb payload "1" then Some (VBool true)
    else if String.eqb payload "0" then Some (VBool false) else None
  else if Ascii.eqb tag "n" then option_map VNum (parseZ payload)
  else if Ascii.eqb tag "s" then Some (VStr payload)
  else if Ascii.eqb tag "d" then option_map VDate (parseZ payload)
  else if Ascii.eqb tag "i" then Some (VId payload)
  else None.

Fixpoint writeEntries (position : CursorObject) : string :=
  match position with
  | [] => "}"
  | (key, v) :: rest =>
      quoted key ++
      String (valueTag v) (quoted (valuePayload v) ++ writeEntries rest)
  end.

(** Modelled from the spec: the ordered key-value text of a position,
    part of the missing [encodeCursor]: an opening brace, then for every
    entry the quoted key, the tag of the value and the quoted value, then
    a closing brace. *)
Definition serialize (position : CursorObject) : string :=
  String "{" (writeEntries position).

(** Reads entries up to the closing brace.  Every entry read consumes
    some text, so a fuel above the length of the text is never used up. *)
Fixpoint readEntries (fuel : nat) (s : string) : option CursorObject :=
  match fuel with
  | O => None
  | S fuel' =>
      if String.eqb s "}" then Some []
      else
        match readQuoted s with
        | Some (key, String tag afterTag) =>
            match readQuoted afterTag with
            | Some (payload, tail) =>
                match readValue tag payload, readEntries fuel' tail with
                | Some v, Some rest => Some ((key, v) :: rest)
                | _, _ => None
                end
            | None => None
            end
        | _ => None
        end
  end.

(** Modelled from the spec: the reader of that text, part of the missing
    [decodeCursor]; [None] when the text is not the text of a position. *)
Definition deserialize (s : string) : option CursorObject :=
  match s with
  | EmptyString => None
  | String c rest =>
      if Ascii.eqb c "{" then readEntries (S (String.length rest)) rest
      else None
  end.

(** The URL-safe base64 alphabet. *)
Definition alphabet : list ascii :=
  list_ascii_of_string
    "ABCDEFGHIJKLMNOPQRSTUVWXYZabcdefghijklmnopqrstuvwxyz0123456789-_".

Definition sextetChar (n : N) : ascii := nth (N.to_nat n) alphabet "A"%char.

Fixpoint indexOf (c : ascii) (l : list ascii) (i : N) : option N :=
  match l with
  | [] => None
  | x :: rest => if Ascii.eqb x c then Some i else indexOf c rest (N.succ i)
  end.

Definition charSextet (c : ascii) : option N := indexOf c alphabet 0%N.

(** Three bytes are 24 bits, written as four sextets; a last group of
    two bytes is written as three sextets and one of one byte as two. *)
Definition encode3 (a b c : ascii) : list ascii :=
  let n := (N_of_ascii a * 65536 + N_of_ascii b * 256 + N_of_ascii c)%N in
  [ sextetChar (n / 262144); sextetChar ((n / 4096) mod 64);
    sextetChar ((n / 64) mod 64); sextetChar (n mod 64) ]%N.

Definition encode2 (a b : ascii) : list ascii :=
  let n := (N_of_ascii a * 1024 + N_of_ascii b * 4)%N in
  [ sextetChar (n / 4096); sextetChar ((n / 64) mod 64);
    sextetChar (n mod 64) ]%N.

Definition encode1 (a : ascii) : list ascii :=
  let n := (N_of_ascii a * 16)%N in
  [ sextetChar (n / 64); sextetChar (n mod 64) ]%N.

Fixpoint toBase64url (bytes : list ascii) : list ascii :=
  match bytes with
  | [] => []
  | a :: [] => encode1 a
  | a :: b :: [] => encode2 a b
  | a :: b :: c :: rest => encode3 a b c ++ toBase64url rest
  end.

Definition decode4 (s0 s1 s2 s3 : N) : list ascii :=
  let n := (((s0 * 64 + s1) * 64 + s2) * 64 + s3)%N in
  [ ascii_of_N (n / 65536); ascii_of_N ((n / 256) mod 256);
    ascii_of_N (n mod 256) ]%N.

Definition decode3 (s0 s1 s2 : N) : list ascii :=
  let n := ((s0 * 64 + s1) * 64 + s2)%N in
  [ ascii_of_N (n / 1024); ascii_of_N ((n / 4) mod 256) ]%N.

Definition decode2 (s0 s1 : N) : list ascii :=
  let n := (s0 * 64 + s1)%N in
  [ ascii_of_N (n / 16) ]%N.

Fixpoint fromBase64url (chars : list ascii) : option (list ascii) :=
  match chars with
  | [] => Some []
  | _ :: [] => None
  | c0 :: c1 :: [] =>
      match charSextet c0, charSextet c1 with
      | Some s0, Some s1 => Some (decode2 s0 s1)
      | _, _ => None
      end
  | c0 :: c1 :: c2 :: [] =>
      match charSextet c0, charSextet c1, charSextet c2 with
      | Some s0, Some s1, Some s2 => Some (decode3 s0 s1 s2)
      | _, _, _ => None
      end
  | c0 :: c1 :: c2 :: c3 :: rest =>
      match charSextet c0, charSextet c1, charSextet c2, charSextet c3,
            fromBase64url rest with
      | Some s0, Some s1, Some s2, Some s3, Some bytes =>
          Some (decode4 s0 s1 s2 s3 ++ bytes)
      | _, _, _, _, _ => None
      end
  end.

(** Modelled from the spec: the definition of [encodeCursor] is missing;
    4.1 makes it the opaque, URL-safe text of a position. *)
Definition encodeCursor (position : CursorObject) : string :=
  string_of_list_ascii
    (toBase64url (list_ascii_of_string (serialize position))).

(** Modelled from the spec: the definition of [decodeCursor] is missing;
    4.1 makes it the inverse of [encodeCursor], failing with
    [MalformedCursor] ([None]) on any other text. *)
Definition decodeCursor (cursor : string) : option CursorObject :=
  match fromBase64url (list_ascii_of_string cursor) with
  | Some bytes => deserialize (string_of_list_ascii bytes)
  | None => None
  end.

(** An argument that is neither [null] nor [undefined]. *)
Definition present {A : Type} (x : option A) : bool :=
  match x with Some _ => true | None => false end.

(** [x ?? y] on two optional arguments. *)
Definition firstOf {A : Type} (x y : option A) : option A :=
  match x with Some _ => x | None => y end.

(** Modelled from the spec: the definition of [normalizeDirectionParams]
    is missing.  4.2 leaves two policies to the implementer; here a
    forward-style argument ([first] or [after]) wins over a
    backward-style one, and a request with neither [first] nor [last]
    fails ([MissingLimit]).  A cursor that does not decode fails
    ([MalformedCursor]).  The steps are taken in the order of 4.2; the
    tie-break field is appended in the direction of the scan, which the
    backward-correctness property of section 8 needs on ties. *)
Definition normalizeDirectionParams (params : DirectionParams.t)
    : option Normalized.t :=
  let first := DirectionParams.first params in
  let after := DirectionParams.after params in
  let last := DirectionParams.last params in
  let before := DirectionParams.before params in
  let isBackward :=
    (present last || present before)
    && negb (present first || present after) in
  let inverted :=
    if isBackward then invertSort (DirectionParams.sort params)
    else DirectionParams.sort params in
  let sort := withTieBreak (if isBackward then Desc else Asc) inverted in
  match firstOf first last with
  | None => None
  | Some limit =>
      match firstOf after before with
      | None => Some (Normalized.mk limit None sort isBackward)
      | Some text =>
          match decodeCursor text with
          | None => None
          | Some position =>
              Some (Normalized.mk limit (Some position) sort isBackward)
          end
      end
  end.

End Utils.

(** ** A collection held in memory

    A stand-in for the driver on concrete data: it keeps a list of
    documents, runs the stages of an aggregation over them, one after the
    other, and counts the documents a query document selects.  Values of
    different types compare by type, values of one type by their natural
    order. *)

Module Memory.

Definition typeRank (v : Value) : N :=
  match v with
  | VNull => 0
  | VNum _ => 1
  | VStr _ => 2
  | VId _ => 3
  | VBool _ => 4
  | VDate _ => 5
  end%N.

Definition compareValues (a b : Value) : comparison :=
  match a, b with
  | VNum x, VNum y => Z.compare x y
  | VStr x, VStr y => String.compare x y
  | VId x, VId y => String.compare x y
  | VBool x, VBool y => Bool.compare x y
  | VDate x, VDate y => Z.compare x y
  | _, _ => N.compare (typeRank a) (typeRank b)
  end.

Fixpoint insertSorted (sort : Sort) (d : Document) (l : list Document)
    : list Document :=
  match l with
  | [] => [d]
  | x :: rest =>
      if sortLeb compareValues sort d x then d :: l
      else x :: insertSorted sort d rest
  end.

Definition sortDocuments (sort : Sort) (l : list Document)
    : list Document :=
  fold_right (insertSorted sort) [] l.

(** A stage the store does not know, a negative [$skip] and a [$limit]
    that is not positive are errors. *)
Definition runStage (stage : Stage) (documents : list Document)
    : option (list Document) :=
  match stage with
  | SMatch q => Some (filter (matches compareValues q) documents)
  | SSkip n =>
      if n <? 0 then None else Some (skipn (Z.to_nat n) documents)
  | SSort s => Some (sortDocuments s documents)
  | SLimit n =>
      if n <=? 0 then None else Some (firstn (Z.to_nat n) documents)
  | SOther _ _ => None
  end.

Fixpoint runPipeline (stages : list Stage) (documents : list Document)
    : option (list Document) :=
  match stages with
  | [] => Some documents
  | stage :: rest =>
      match runStage stage documents with
      | Some documents' => runPipeline rest documents'
      | None => None
      end
  end.

(** Whether a field value is equal to an object.  The field values of
    this model are scalars, and no scalar is equal to an object. *)
Definition equalsObject (v : Value) (object : list (nat * Stage)) : bool :=
  match v with
  | VNull => false
  | VBool _ => false
  | VNum _ => false
  | VStr _ => false
  | VDate _ => false
  | VId _ => false
  end.

(** [countDocuments] reads its argument as a query document:
    [{ filters: o }] selects the documents whose field [filters] is
    equal to the object [o]; a document without that field is not
    selected. *)
Definition selects (query : CountFilter) (document : Document) : bool :=
  match get document "filters" with
  | Some v => equalsObject v (filters query)
  | None => false
  end.

(** The documents that come out of a pipeline run on the collection. *)
Definition matching (pipeline : list Stage) (documents : list Document)
    : list Document :=
  match runPipeline pipeline documents with
  | Some selected => selected
  | None => []
  end.

Definition collection (documents : list Document) : Collection :=
  mkCollection
    (fun query =>
       Some (N.of_nat (List.length (List.filter (selects query) documents))))
    (fun stages => runPipeline stages documents).

End Memory.

(** ** A collection of people, and some calls on it *)

Module Example.

Definition person (id : Z) (name : string) : Document :=
  [("_id", VNum id); ("name", VStr name)].

(** By name, then by identifier: 2, 4, 1, 3, 5. *)
Definition people : list Document :=
  [person 1 "b"; person 2 "a"; person 3 "c"; person 4 "a"; person 5 "d"].

Definition crowd : list Document :=
  map (fun id => person id "x") [1; 2; 3; 4; 5; 6; 7; 8; 9; 10].

Definition byName : Sort := [("name", Asc)].

Definition paginate (documents : list Document) (params : Params.t)
    : option AggregatePaginatedResult :=
  result Utils.normalizeDirectionParams Utils.buildQueryFromCursor
    Utils.buildCursor Utils.encodeCursor (Memory.collection documents) params.

Definition normalize (params : Params.t) : option Normalized.t :=
  Utils.normalizeDirectionParams (directionParams params).

Definition fetch (documents : list Document) (params : Params.t)
    (n : Normalized.t) : option (list Document) :=
  aggregate (Memory.collection documents)
    (dataPipeline Utils.buildQueryFromCursor (Params.pipeline params)
       (Params.skip params) n).

Definition cursorOf (id : Z) (name : string) : string :=
  Utils.encodeCursor [("name", VStr name); ("_id", VNum id)].

(** [{ first: 2, sort: { name: 1 } }] *)
Definition firstTwo : Params.t :=
  Params.mk (Some 2) None None None None [] (Some byName).

(** [{ first: 2, after: <person 4>, sort: { name: 1 } }] *)
Definition nextTwo : Params.t :=
  Params.mk (Some 2) (Some (cursorOf 4 "a")) None None None [] (Some byName).

(** [{ first: 10, sort: { name: 1 } }] *)
Definition firstTen : Params.t :=
  Params.mk (Some 10) None None None None [] (Some byName).

(** [{ first: 1, sort: { name: 1 } }], to which a [skip] is added. *)
Definition firstOne : Params.t :=
  Params.mk (Some 1) None None None None [] (Some byName).

Definition firstOneSkipTwo : Params.t :=
  Params.mk (Some 1) None None (Some 2) None [] (Some byName).

(** [{ last: 2, before: <person 3>, sort: { name: 1 } }] *)
Definition lastTwoBefore : Params.t :=
  Params.mk None None (Some 2) None (Some (cursorOf 3 "c")) []
    (Some byName).

(** [{ last: 2, before: <person 2>, sort: { name: 1 } }]: nobody comes
    before person 2. *)
Definition lastTwoBeforeAll : Params.t :=
  Params.mk None None (Some 2) None (Some (cursorOf 2 "a")) []
    (Some byName).

End Example.

(** ** Further calls: a collection that answers whatever it is asked *)

Module Corner.

(** A collection that resolves every count to [count] and every
    aggregation to [documents]. *)
Definition answering (count : N) (documents : list Document) : Collection :=
  mkCollection (fun _ => Some count) (fun _ => Some documents).

(** [{ first: 2, after: "!" }]: the cursor is not a base64 text. *)
Definition malformedAfter : Params.t :=
  Params.mk (Some 2) (Some "!") None None None [] None.

(** [{ first: 2, pipeline: [{ $project: null }] }]: the collection held
    in memory does not know the stage. *)
Definition unknownStage : Params.t :=
  Params.mk (Some 2) None None None None [SOther "$project" VNull] None.

(** [{ first: 2, after: <person 3>, sort: { name: -1, _id: -1 } }]: the
    forward call that scans as [Example.lastTwoBefore] does. *)
Definition nextTwoDescending : Params.t :=
  Params.mk (Some 2) (Some (Example.cursorOf 3 "c")) None None None []
    (Some [("name", Desc); ("_id", Desc)]).

End Corner.

(** * Properties *)

(** ** JavaScript primitives *)

Lemma orZero_id (n : N) : orZero n = n.
Proof.
  unfold orZero. destruct (N.eqb_spec n 0); congruence.
Qed.

Lemma index_nth_error {A : Type} (l : list A) (i : Z) :
  0 <= i -> index l i = nth_error l (Z.to_nat i).
Proof.
  intros Hi. unfold index. destruct (Z.ltb_spec i 0); [lia | reflexivity].
Qed.

Lemma index_out_of_range {A : Type} (l : list A) (i : Z) :
  Z.of_nat (List.length l) <= i -> index l i = None.
Proof.
  intros Hi. rewrite index_nth_error by lia.
  apply nth_error_None. lia.
Qed.

Lemma index_in_range {A : Type} (l : list A) (i : Z) :
  0 <= i < Z.of_nat (List.length l) -> exists x, index l i = Some x.
Proof.
  intros Hi. rewrite index_nth_error by lia.
  destruct (nth_error l (Z.to_nat i)) as [x|] eqn:E; [now exists x|].
  apply nth_error_None in E. lia.
Qed.

Lemma index_negative {A : Type} (l : list A) (i : Z) :
  i < 0 -> index l i = None.
Proof.
  intros Hi. unfold index. destruct (Z.ltb_spec i 0); [reflexivity | lia].
Qed.

Lemma slice0_firstn {A : Type} (l : list A) (e : Z) :
  0 <= e -> slice0 l e = firstn (Z.to_nat e) l.
Proof.
  intros He. unfold slice0. destruct (Z.ltb_spec e 0); [lia | reflexivity].
Qed.

Lemma slice0_is_firstn {A : Type} (l : list A) (e : Z) :
  exists k, slice0 l e = firstn k l.
Proof.
  unfold slice0. destruct (e <? 0); eexists; reflexivity.
Qed.

Lemma slice0_all {A : Type} (l : list A) (e : Z) :
  Z.of_nat (List.length l) <= e -> slice0 l e = l.
Proof.
  intros He. rewrite slice0_firstn by lia. apply firstn_all2. lia.
Qed.

Lemma BooleanObject_true {A : Type} (x : option A) :
  BooleanObject x = true <-> exists a, x = Some a.
Proof.
  destruct x as [a|]; simpl; split; intros H.
  - now exists a.
  - reflexivity.
  - discriminate.
  - destruct H as [a H]. discriminate.
Qed.

(** [Boolean(s)] is true exactly for a string that is not empty. *)
Lemma BooleanString_true (o : option string) :
  BooleanString o = true <-> exists s, o = Some s /\ s <> EmptyString.
Proof.
  destruct o as [s|]; cbn [BooleanString]; split.
  - intros H. exists s. split; [reflexivity|].
    intros ->. discriminate H.
  - intros (s' & [= <-] & Hs).
    destruct (String.eqb_spec s EmptyString); [contradiction|reflexivity].
  - discriminate.
  - intros (s' & H & _). discriminate H.
Qed.

(** The probe finds a document exactly when [limit] is an index of the
    fetched list. *)
Lemma hasMore_true (allDocuments : list Document) (limit : Z) :
  hasMore allDocuments limit = true <->
  0 <= limit < Z.of_nat (List.length allDocuments).
Proof.
  unfold hasMore, extraDocument. rewrite BooleanObject_true. split.
  - intros [x Hx].
    destruct (Z_lt_ge_dec limit 0) as [Hneg|Hpos].
    + rewrite index_negative in Hx by exact Hneg. discriminate.
    + destruct (Z_le_gt_dec (Z.of_nat (List.length allDocuments)) limit)
        as [Hle|Hgt]; [|lia].
      rewrite index_out_of_range in Hx by exact Hle. discriminate.
  - apply index_in_range.
Qed.

(** ** Sorting and matching *)

Section OrderingFacts.

Variable compareValues : Value -> Value -> comparison.

Local Abbreviation cmpDocs := (sortCompare compareValues).
Local Abbreviation leb := (sortLeb compareValues).
Local Abbreviation sorted := (sortedBy compareValues).

(** The empty match document lets every document through. *)
Lemma matches_empty (document : Document) :
  matches compareValues (QFields []) document = true.
Proof. reflexivity. Qed.

Lemma compareField_invert key d a b :
  compareField compareValues key (Utils.invertDirection d) a b
  = compareField compareValues key d b a.
Proof. destruct d; reflexivity. Qed.

(** Inverting every direction compares the documents the other way round. *)
Lemma sortCompare_invert sort a b :
  cmpDocs (Utils.invertSort sort) a b = cmpDocs sort b a.
Proof.
  induction sort as [|[key d] rest IH]; [reflexivity|].
  cbn [Utils.invertSort map sortCompare fst snd].
  rewrite compareField_invert. fold (Utils.invertSort rest). rewrite IH.
  reflexivity.
Qed.

Lemma sortCompare_app s t a b :
  cmpDocs (s ++ t) a b =
  match cmpDocs s a b with Eq => cmpDocs t a b | c => c end.
Proof.
  induction s as [|[key d] rest IH]; [reflexivity|].
  cbn [app sortCompare]. rewrite IH.
  destruct (compareField compareValues key d a b); reflexivity.
Qed.

Lemma sortLeb_invert sort a b :
  leb (Utils.invertSort sort) a b = leb sort b a.
Proof. unfold sortLeb. now rewrite sortCompare_invert. Qed.

(** Further tie-break fields only refine an order. *)
Lemma sortLeb_prefix s t a b :
  leb (s ++ t) a b = true -> leb s a b = true.
Proof.
  unfold sortLeb. rewrite sortCompare_app.
  destruct (cmpDocs s a b); auto.
Qed.

Lemma sortedBy_cons sort a b rest :
  sorted sort (a :: b :: rest) = leb sort a b && sorted sort (b :: rest).
Proof. reflexivity. Qed.

Lemma sortedBy_prefix s t documents :
  sorted (s ++ t) documents = true -> sorted s documents = true.
Proof.
  induction documents as [|a [|b rest] IH]; [reflexivity | reflexivity |].
  rewrite !sortedBy_cons, !andb_true_iff. intros [Hab Hrest].
  split; [now apply sortLeb_prefix with t | now apply IH].
Qed.

Lemma sortedBy_tail sort a rest :
  sorted sort (a :: rest) = true -> sorted sort rest = true.
Proof.
  destruct rest as [|b rest]; [reflexivity|].
  rewrite sortedBy_cons, andb_true_iff. now intros [_ H].
Qed.

Lemma sortedBy_firstn sort k documents :
  sorted sort documents = true -> sorted sort (firstn k documents) = true.
Proof.
  revert documents.
  induction k as [|k IH]; intros [|a rest] H; try reflexivity.
  cbn [firstn]. specialize (IH rest (sortedBy_tail _ _ _ H)).
  destruct k as [|k]; [reflexivity|].
  destruct rest as [|b rest]; [reflexivity|].
  cbn [firstn] in IH |- *. rewrite sortedBy_cons in H |- *.
  apply andb_true_iff in H as [Hab _].
  now rewrite Hab, IH.
Qed.

(** A sorted list stays sorted when an element its last one may come
    before is put at its end. *)
Lemma sortedBy_snoc sort documents x :
  sorted sort documents = true ->
  (forall y, last documents x = y -> leb sort y x = true \/ documents = []) ->
  sorted sort (documents ++ [x]) = true.
Proof.
  induction documents as [|a [|b rest] IH]; intros Hs Hlast.
  - reflexivity.
  - cbn [app]. rewrite sortedBy_cons.
    destruct (Hlast a eq_refl) as [H|H]; [|discriminate].
    now rewrite H.
  - change ((a :: b :: rest) ++ [x]) with (a :: b :: (rest ++ [x])).
    rewrite sortedBy_cons in Hs |- *.
    apply andb_true_iff in Hs as [Hab Hrest]. rewrite Hab. cbn [andb].
    apply IH; [exact Hrest|].
    intros y Hy. left.
    destruct (Hlast y) as [H|H]; [exact Hy | exact H | discriminate].
Qed.

(** A list sorted by the inverted sort is, once reversed, sorted by the
    sort itself. *)
Lemma sortedBy_rev_invert sort documents :
  sorted (Utils.invertSort sort) documents = true ->
  sorted sort (rev documents) = true.
Proof.
  induction documents as [|a rest IH]; intros Hs; [reflexivity|].
  cbn [rev]. apply sortedBy_snoc.
  - apply IH. exact (sortedBy_tail _ _ _ Hs).
  - intros y Hy. destruct rest as [|b rest]; [now right|]. left.
    rewrite sortedBy_cons, sortLeb_invert in Hs.
    apply andb_true_iff in Hs as [Hba _].
    cbn [rev] in Hy. rewrite last_last in Hy. now subst y.
Qed.

End OrderingFacts.

(** ** The connection result *)

Section PaginatorFacts.

Variable normalizeDirectionParams : DirectionParams.t -> option Normalized.t.
Variable buildQueryFromCursor : Sort -> CursorObject -> Query.
Variable buildCursor : Document -> Sort -> CursorObject.
Variable encodeCursor : CursorObject -> string.

Local Abbreviation run :=
  (result normalizeDirectionParams buildQueryFromCursor buildCursor
     encodeCursor).
Local Abbreviation issued :=
  (requests normalizeDirectionParams buildQueryFromCursor buildCursor
     encodeCursor).
Local Abbreviation stagesOf := (dataPipeline buildQueryFromCursor).
Local Abbreviation assembled := (assemble buildCursor encodeCursor).
Local Abbreviation edgesOf := (buildEdges buildCursor encodeCursor).

(** A call resolves exactly when the normalizer and both queries do. *)
Lemma result_inv collection params res :
  run collection params = Some res ->
  exists n count allDocuments,
    normalizeDirectionParams (directionParams params) = Some n /\
    countDocuments collection (countFilter (Params.pipeline params))
      = Some count /\
    aggregate collection
      (stagesOf (Params.pipeline params) (Params.skip params) n)
      = Some allDocuments /\
    res = assembled params n count allDocuments.
Proof.
  unfold result, aggregatePaginated.
  destruct (normalizeDirectionParams _) as [n|] eqn:Hn; [|discriminate].
  cbn [snd].
  destruct (countDocuments _ _) as [count|] eqn:Hc; [|discriminate].
  destruct (aggregate _ _) as [allDocuments|] eqn:Ha; [|discriminate].
  intros [= <-]. exists n, count, allDocuments. auto.
Qed.

Lemma result_intro collection params n count allDocuments :
  normalizeDirectionParams (directionParams params) = Some n ->
  countDocuments collection (countFilter (Params.pipeline params))
    = Some count ->
  aggregate collection
    (stagesOf (Params.pipeline params) (Params.skip params) n)
    = Some allDocuments ->
  run collection params = Some (assembled params n count allDocuments).
Proof.
  intros Hn Hc Ha. unfold result, aggregatePaginated.
  rewrite Hn. cbn [snd]. now rewrite Hc, Ha.
Qed.

(** The result of a resolved call, given what the normalizer and the
    data query answered. *)
Lemma result_assembled collection params n allDocuments res :
  normalizeDirectionParams (directionParams params) = Some n ->
  aggregate collection
    (stagesOf (Params.pipeline params) (Params.skip params) n)
    = Some allDocuments ->
  run collection params = Some res ->
  exists count,
    countDocuments collection (countFilter (Params.pipeline params))
      = Some count /\
    res = assembled params n count allDocuments.
Proof.
  intros Hn Ha Hres.
  destruct (result_inv _ _ _ Hres) as (n' & count & all' & Hn' & Hc & Ha' & ->).
  rewrite Hn in Hn'. injection Hn' as <-.
  rewrite Ha in Ha'. injection Ha' as <-.
  now exists count.
Qed.

Lemma nodes_buildEdges documents sort :
  map Edge.node (edgesOf documents sort) = documents.
Proof.
  unfold buildEdges. rewrite map_map. cbn [Edge.node]. apply map_id.
Qed.

Lemma edges_assembled params n count allDocuments :
  edges (assembled params n count allDocuments) =
  edgesOf
    (desiredDocuments allDocuments (Normalized.limit n)
       (Normalized.paginatingBackwards n))
    (Normalized.sort n).
Proof. reflexivity. Qed.

(** The total count of a resolved call is what the collection answers to
    the count request, which holds the caller's pipeline and none of
    [skip], [first], [last], [after] and [before]: two calls on one
    collection with the same pipeline report the same total count. *)
Lemma totalCount_from_pipeline_only collection params res :
  run collection params = Some res ->
  countDocuments collection (countFilter (Params.pipeline params))
    = Some (PageInfo.totalCount (pageInfo res)) /\
  forall params' res',
    Params.pipeline params' = Params.pipeline params ->
    run collection params' = Some res' ->
    PageInfo.totalCount (pageInfo res')
      = PageInfo.totalCount (pageInfo res).
Proof.
  intros Hres.
  destruct (result_inv _ _ _ Hres) as (n & count & all & _ & Hc & _ & ->).
  cbn [pageInfo assemble PageInfo.totalCount]. rewrite orZero_id.
  split; [exact Hc|].
  intros params' res' Hp Hres'.
  destruct (result_inv _ _ _ Hres') as (n' & count' & all' & _ & Hc' & _ & ->).
  cbn [pageInfo assemble PageInfo.totalCount]. rewrite orZero_id.
  rewrite Hp in Hc'. congruence.
Qed.

(** C3: [hasPreviousPage] is the overfetch signal [hasMore] when
    paginating backwards and [Boolean(after)] otherwise; [hasNextPage] is
    [Boolean(before)] when paginating backwards and [hasMore] otherwise.
    The overfetch signal is true exactly when a document was fetched at
    index [limit], and [Boolean] of an argument exactly when it is a
    string that is not empty: so, going backwards, [hasPreviousPage]
    tells that a document was fetched at index [limit] and [hasNextPage]
    that [before] was supplied; going forwards, [hasPreviousPage] tells
    that [after] was supplied and [hasNextPage] that a document was
    fetched at index [limit]. *)
Theorem pageInfo_flags collection params n allDocuments res :
  normalizeDirectionParams (directionParams params) = Some n ->
  aggregate collection
    (stagesOf (Params.pipeline params) (Params.skip params) n)
    = Some allDocuments ->
  run collection params = Some res ->
  (PageInfo.hasPreviousPage (pageInfo res) =
     (if Normalized.paginatingBackwards n
      then hasMore allDocuments (Normalized.limit n)
      else BooleanString (Params.after params)) /\
   PageInfo.hasNextPage (pageInfo res) =
     (if Normalized.paginatingBackwards n
      then BooleanString (Params.before params)
      else hasMore allDocuments (Normalized.limit n))) /\
  (Normalized.paginatingBackwards n = true ->
   (PageInfo.hasPreviousPage (pageInfo res) = true <->
    0 <= Normalized.limit n < Z.of_nat (List.length allDocuments)) /\
   (PageInfo.hasNextPage (pageInfo res) = true <->
    exists s, Params.before params = Some s /\ s <> EmptyString)) /\
  (Normalized.paginatingBackwards n = false ->
   (PageInfo.hasPreviousPage (pageInfo res) = true <->
    exists s, Params.after params = Some s /\ s <> EmptyString) /\
   (PageInfo.hasNextPage (pageInfo res) = true <->
    0 <= Normalized.limit n < Z.of_nat (List.length allDocuments))).
Proof.
  intros Hn Ha Hres.
  destruct (result_assembled _ _ _ _ _ Hn Ha Hres) as (count & _ & ->).
  cbn [pageInfo assemble PageInfo.hasPreviousPage PageInfo.hasNextPage].
  split; [split; reflexivity|].
  split; intros ->; split;
    first [apply hasMore_true | apply BooleanString_true].
Qed.

(** C6: the stage list handed to [aggregate] is the caller's pipeline
    followed by a [$match] (the query built from the cursor, or the empty
    match document, which lets every document through, when there is no
    cursor), a [$skip], a [$sort] and a [$limit] of [limit + 1]; it is
    issued after the count request, and a resolved call is assembled from
    the collection's answer to it. *)
Theorem data_query_stages collection params n :
  normalizeDirectionParams (directionParams params) = Some n ->
  exists q,
    issued collection params =
      [ ReqCountDocuments (countFilter (Params.pipeline params));
        ReqAggregate
          (Params.pipeline params ++
           [ SMatch q;
             SSkip (nullish (Params.skip params) 0);
             SSort (Normalized.sort n);
             SLimit (Normalized.limit n + 1) ]) ] /\
    (forall cursor, Normalized.cursor n = Some cursor ->
       q = buildQueryFromCursor (Normalized.sort n) cursor) /\
    (Normalized.cursor n = None ->
       forall compareValues document,
         matches compareValues q document = true) /\
    (forall res, run collection params = Some res ->
       exists count allDocuments,
         aggregate collection
           (Params.pipeline params ++
            [ SMatch q;
              SSkip (nullish (Params.skip params) 0);
              SSort (Normalized.sort n);
              SLimit (Normalized.limit n + 1) ]) = Some allDocuments /\
         res = assembled params n count allDocuments).
Proof.
  intros Hn.
  exists (match Normalized.cursor n with
          | Some cursor => buildQueryFromCursor (Normalized.sort n) cursor
          | None => QFields []
          end).
  repeat split.
  - unfold requests, aggregatePaginated. rewrite Hn. reflexivity.
  - intros cursor Hc. now rewrite Hc.
  - intros Hc compareValues document. rewrite Hc. apply matches_empty.
  - intros res Hres.
    destruct (result_inv _ _ _ Hres) as (n' & count & all & Hn' & _ & Ha & ->).
    rewrite Hn in Hn'. injection Hn' as <-.
    exists count, all. split; [exact Ha | reflexivity].
Qed.

(** C7, as the code has it: when the data query returns no document, the
    result has no edge, no start and no end cursor and a count of zero;
    going forwards [hasNextPage] is false and [hasPreviousPage] is
    [Boolean(after)], going backwards [hasPreviousPage] is false and
    [hasNextPage] is [Boolean(before)]. *)
Theorem empty_result collection params n res :
  normalizeDirectionParams (directionParams params) = Some n ->
  aggregate collection
    (stagesOf (Params.pipeline params) (Params.skip params) n) = Some [] ->
  run collection params = Some res ->
  edges res = [] /\
  PageInfo.count (pageInfo res) = 0%N /\
  PageInfo.startCursor (pageInfo res) = None /\
  PageInfo.endCursor (pageInfo res) = None /\
  PageInfo.hasNextPage (pageInfo res) =
    (if Normalized.paginatingBackwards n
     then BooleanString (Params.before params) else false) /\
  PageInfo.hasPreviousPage (pageInfo res) =
    (if Normalized.paginatingBackwards n
     then false else BooleanString (Params.after params)).
Proof.
  intros Hn Ha Hres.
  destruct (result_assembled _ _ _ _ _ Hn Ha Hres) as (count & _ & ->).
  assert (Hmore : hasMore [] (Normalized.limit n) = false).
  { unfold hasMore, extraDocument, index.
    destruct (Normalized.limit n <? 0); [reflexivity|].
    now destruct (Z.to_nat (Normalized.limit n)). }
  assert (Hdesired : desiredDocuments [] (Normalized.limit n)
                       (Normalized.paginatingBackwards n) = []).
  { unfold desiredDocuments, slice0. rewrite !firstn_nil.
    now destruct (Normalized.limit n <? 0),
                 (Normalized.paginatingBackwards n). }
  unfold assemble. cbn [edges pageInfo PageInfo.count PageInfo.startCursor
    PageInfo.endCursor PageInfo.hasNextPage PageInfo.hasPreviousPage].
  rewrite Hmore, Hdesired. cbn.
  now destruct (Normalized.paginatingBackwards n).
Qed.

(** C10: on a forward call without [after], [hasPreviousPage] is false
    whatever [skip] is. *)
Theorem forward_without_after_has_no_previous collection params n skip res :
  Params.after params = None ->
  normalizeDirectionParams (directionParams params) = Some n ->
  Normalized.paginatingBackwards n = false ->
  run collection
    (Params.mk (Params.first params) (Params.after params)
       (Params.last params) skip (Params.before params)
       (Params.pipeline params) (Params.sort params)) = Some res ->
  PageInfo.hasPreviousPage (pageInfo res) = false.
Proof.
  intros Hafter Hn Hfwd Hres.
  destruct (result_inv _ _ _ Hres) as (n' & count & all & Hn' & _ & _ & ->).
  change (directionParams _) with (directionParams params) in Hn'.
  rewrite Hn in Hn'. injection Hn' as <-.
  cbn [pageInfo assemble PageInfo.hasPreviousPage Params.after].
  now rewrite Hfwd, Hafter.
Qed.

(** C4: when the data query returned [limit + 1] documents, the last of
    them is the extra one: [hasMore] is true, the nodes of the edges are
    the first [limit] documents (reversed when paginating backwards), and
    the result is the same whatever document stands in the extra place. *)
Theorem overfetch_discarded collection params n allDocuments res :
  normalizeDirectionParams (directionParams params) = Some n ->
  aggregate collection
    (stagesOf (Params.pipeline params) (Params.skip params) n)
    = Some allDocuments ->
  run collection params = Some res ->
  0 <= Normalized.limit n ->
  Z.of_nat (List.length allDocuments) = Normalized.limit n + 1 ->
  let visible := firstn (Z.to_nat (Normalized.limit n)) allDocuments in
  exists extra,
    allDocuments = visible ++ [extra] /\
    extraDocument allDocuments (Normalized.limit n) = Some extra /\
    hasMore allDocuments (Normalized.limit n) = true /\
    map Edge.node (edges res) =
      (if Normalized.paginatingBackwards n then rev visible else visible) /\
    PageInfo.count (pageInfo res) = Z.to_N (Normalized.limit n) /\
    forall other,
      assembled params n (PageInfo.totalCount (pageInfo res))
        (visible ++ [other]) = res.
Proof.
  intros Hn Ha Hres Hlimit Hlen visible.
  destruct (result_assembled _ _ _ _ _ Hn Ha Hres) as (count & _ & ->).
  set (limit := Normalized.limit n) in *.
  assert (Hvis : List.length visible = Z.to_nat limit).
  { unfold visible. rewrite length_firstn. lia. }
  assert (Hsplit : allDocuments = visible ++ skipn (Z.to_nat limit) allDocuments).
  { unfold visible. now rewrite firstn_skipn. }
  destruct (skipn (Z.to_nat limit) allDocuments) as [|extra [|x rest]] eqn:Hskip.
  - apply (f_equal (@List.length _)) in Hskip.
    rewrite length_skipn in Hskip. cbn in Hskip. lia.
  - exists extra. clearbody visible. subst allDocuments.
    assert (Hextra : forall other, index (visible ++ [other]) limit = Some other).
    { intros other. rewrite index_nth_error by lia.
      rewrite nth_error_app2 by lia. rewrite Hvis, Nat.sub_diag. reflexivity. }
    assert (Hslice : forall other, slice0 (visible ++ [other]) limit = visible).
    { intros other. rewrite slice0_firstn by lia.
      rewrite firstn_app, Hvis, Nat.sub_diag. cbn [firstn].
      rewrite app_nil_r. apply firstn_all2. lia. }
    assert (Hsame : forall other,
               assembled params n count (visible ++ [other]) =
               assembled params n count (visible ++ [extra])).
    { intros other. unfold assemble, hasMore, extraDocument, desiredDocuments.
      fold limit. now rewrite !Hextra, !Hslice. }
    split; [reflexivity|].
    split; [apply Hextra|].
    split; [unfold hasMore, extraDocument; now rewrite Hextra|].
    split.
    { rewrite edges_assembled, nodes_buildEdges. unfold desiredDocuments.
      fold limit. now rewrite Hslice. }
    split.
    { unfold assemble, desiredDocuments. cbn [pageInfo PageInfo.count].
      fold limit. rewrite Hslice.
      destruct (Normalized.paginatingBackwards n);
        rewrite ?length_rev, Hvis; lia. }
    intros other. cbn [pageInfo assemble PageInfo.totalCount].
    rewrite orZero_id. apply Hsame.
  - apply (f_equal (@List.length _)) in Hskip.
    rewrite length_skipn in Hskip. cbn in Hskip. lia.
Qed.

(** C9: when the data query returned at most [limit] documents, the
    probe at index [limit] finds nothing, [hasMore] is false and every
    document returned is the node of an edge.  [hasMore] is true exactly
    when [limit] is an index of the list returned: the collection
    honouring a positive [$limit] of [limit + 1], exactly when it returned
    [limit + 1] documents. *)
Theorem probe_without_overfetch collection params n allDocuments res :
  normalizeDirectionParams (directionParams params) = Some n ->
  aggregate collection
    (stagesOf (Params.pipeline params) (Params.skip params) n)
    = Some allDocuments ->
  run collection params = Some res ->
  (Z.of_nat (List.length allDocuments) <= Normalized.limit n ->
     extraDocument allDocuments (Normalized.limit n) = None /\
     hasMore allDocuments (Normalized.limit n) = false /\
     map Edge.node (edges res) =
       (if Normalized.paginatingBackwards n
        then rev allDocuments else allDocuments) /\
     PageInfo.count (pageInfo res) = N.of_nat (List.length allDocuments)) /\
  (hasMore allDocuments (Normalized.limit n) = true <->
   0 <= Normalized.limit n < Z.of_nat (List.length allDocuments)) /\
  (0 < Normalized.limit n + 1 ->
   Z.of_nat (List.length allDocuments) <= Normalized.limit n + 1 ->
     (hasMore allDocuments (Normalized.limit n) = true <->
      Z.of_nat (List.length allDocuments) = Normalized.limit n + 1)).
Proof.
  intros Hn Ha Hres.
  destruct (result_assembled _ _ _ _ _ Hn Ha Hres) as (count & _ & ->).
  set (limit := Normalized.limit n) in *.
  split.
  - intros Hlen.
    assert (Hprobe : extraDocument allDocuments limit = None)
      by now apply index_out_of_range.
    split; [exact Hprobe|].
    unfold hasMore. rewrite Hprobe. split; [reflexivity|].
    unfold assemble, desiredDocuments.
    cbn [edges pageInfo PageInfo.count]. fold limit.
    rewrite nodes_buildEdges, slice0_all by exact Hlen.
    split; [reflexivity|].
    destruct (Normalized.paginatingBackwards n);
      now rewrite ?length_rev.
  - assert (Hprobe : hasMore allDocuments limit = true <->
                     0 <= limit < Z.of_nat (List.length allDocuments)).
    { unfold hasMore, extraDocument. rewrite BooleanObject_true. split.
      - intros [x Hx].
        destruct (Z_lt_ge_dec limit 0) as [Hneg|Hpos].
        + rewrite index_negative in Hx by exact Hneg. discriminate.
        + destruct (Z_le_gt_dec (Z.of_nat (List.length allDocuments)) limit)
            as [Hle|Hgt]; [|lia].
          rewrite index_out_of_range in Hx by exact Hle. discriminate.
      - apply index_in_range. }
    split; [exact Hprobe|].
    intros Hpos Hlen. rewrite Hprobe. lia.
Qed.

(** C5: the nodes of the edges are the visible documents, reversed when
    paginating backwards and in the order fetched otherwise; so when the
    data query returned its documents in the order of the sort it was
    given, and that sort is the caller's one (inverted, on a backward
    call) followed by tie-break fields, the edges are in the order of the
    caller's sort. *)
Theorem edges_in_caller_order collection params n allDocuments res :
  normalizeDirectionParams (directionParams params) = Some n ->
  aggregate collection
    (stagesOf (Params.pipeline params) (Params.skip params) n)
    = Some allDocuments ->
  run collection params = Some res ->
  map Edge.node (edges res) =
    (if Normalized.paginatingBackwards n
     then rev (slice0 allDocuments (Normalized.limit n))
     else slice0 allDocuments (Normalized.limit n)) /\
  forall compareValues tieBreak,
    let originalSort := nullish (Params.sort params) [] in
    Normalized.sort n =
      (if Normalized.paginatingBackwards n
       then Utils.invertSort originalSort else originalSort) ++ tieBreak ->
    sortedBy compareValues (Normalized.sort n) allDocuments = true ->
    sortedBy compareValues originalSort (map Edge.node (edges res)) = true.
Proof.
  intros Hn Ha Hres.
  destruct (result_assembled _ _ _ _ _ Hn Ha Hres) as (count & _ & ->).
  rewrite edges_assembled, nodes_buildEdges. unfold desiredDocuments.
  split; [reflexivity|]. cbv zeta.
  intros compareValues tieBreak Hsort Hsorted.
  rewrite Hsort in Hsorted. apply sortedBy_prefix in Hsorted.
  destruct (slice0_is_firstn allDocuments (Normalized.limit n)) as [k ->].
  destruct (Normalized.paginatingBackwards n).
  - apply sortedBy_rev_invert. now apply sortedBy_firstn.
  - now apply sortedBy_firstn.
Qed.

End PaginatorFacts.

(** ** The cursor codec *)

Section CodecFacts.

Import Utils.

Lemma append_assoc (s t u : string) : ((s ++ t) ++ u = s ++ (t ++ u))%string.
Proof. induction s as [|c s IH]; cbn; [reflexivity | now rewrite IH]. Qed.

Lemma length_append (s t : string) :
  String.length (s ++ t) = (String.length s + String.length t)%nat.
Proof. induction s as [|c s IH]; cbn; [reflexivity | now rewrite IH]. Qed.

(** Reading an escaped text gives the text back, and stops right after
    the closing quote. *)
Lemma readUntilQuote_escape (s rest : string) :
  readUntilQuote (escape s ++ String quote rest) = Some (s, rest).
Proof.
  induction s as [|c s IH]; [reflexivity|].
  cbn [escape].
  destruct (Ascii.eqb c quote) eqn:Hq; cbn [orb].
  - cbn [append readUntilQuote]. rewrite IH.
    replace (Ascii.eqb backslash quote) with false by reflexivity.
    replace (Ascii.eqb backslash backslash) with true by reflexivity.
    reflexivity.
  - destruct (Ascii.eqb c backslash) eqn:Hb.
    + cbn [append readUntilQuote]. rewrite IH.
      replace (Ascii.eqb backslash quote) with false by reflexivity.
      replace (Ascii.eqb backslash backslash) with true by reflexivity.
      reflexivity.
    + cbn [append readUntilQuote]. now rewrite Hq, Hb, IH.
Qed.

Lemma readQuoted_quoted (s rest : string) :
  readQuoted (quoted s ++ rest) = Some (s, rest).
Proof.
  unfold quoted. cbn [append readQuoted].
  replace (Ascii.eqb quote quote) with true by reflexivity.
  rewrite append_assoc. cbn [append]. apply readUntilQuote_escape.
Qed.

Lemma to_int_not_nil (n : Z) :
  Z.to_int n <> Decimal.Pos Decimal.Nil /\ Z.to_int n <> Decimal.Neg Decimal.Nil.
Proof.
  destruct n as [|p|p]; cbn; split; try discriminate;
    intros [= H]; now apply (DecimalPos.Unsigned.to_uint_nonnil p).
Qed.

Lemma parseZ_printZ (n : Z) : parseZ (printZ n) = Some n.
Proof.
  unfold parseZ, printZ.
  destruct (to_int_not_nil n) as [Hpos Hneg].
  rewrite NilZero.isi by assumption.
  cbn [option_map]. now rewrite DecimalZ.of_to.
Qed.

Lemma readValue_written (v : Value) :
  readValue (valueTag v) (valuePayload v) = Some v.
Proof.
  destruct v as [|b|n|s|ms|hex]; unfold readValue; cbn [valueTag valuePayload].
  - reflexivity.
  - now destruct b.
  - cbn. now rewrite parseZ_printZ.
  - reflexivity.
  - cbn. now rewrite parseZ_printZ.
  - reflexivity.
Qed.

Lemma readEntries_written (position : CursorObject) (fuel : nat) :
  (List.length position < fuel)%nat ->
  readEntries fuel (writeEntries position) = Some position.
Proof.
  revert fuel.
  induction position as [|[key v] rest IH]; intros [|fuel] Hfuel;
    try (cbn in Hfuel; lia).
  - reflexivity.
  - cbn [writeEntries readEntries].
    replace (String.eqb _ "}") with false by reflexivity.
    rewrite readQuoted_quoted, readQuoted_quoted, readValue_written.
    rewrite IH by (cbn in Hfuel; lia). reflexivity.
Qed.

Lemma length_writeEntries (position : CursorObject) :
  (List.length position < String.length (writeEntries position))%nat.
Proof.
  induction position as [|[key v] rest IH]; cbn [writeEntries List.length].
  - cbn. lia.
  - rewrite length_append. cbn [String.length]. rewrite length_append. lia.
Qed.

Lemma deserialize_serialize (position : CursorObject) :
  deserialize (serialize position) = Some position.
Proof.
  unfold deserialize, serialize.
  replace (Ascii.eqb "{" "{") with true by reflexivity.
  apply readEntries_written.
  pose proof (length_writeEntries position). lia.
Qed.

Lemma sextet_table :
  forallb
    (fun k =>
       match charSextet (sextetChar (N.of_nat k)) with
       | Some m => N.eqb m (N.of_nat k)
       | None => false
       end)
    (seq 0 64) = true.
Proof. vm_compute. reflexivity. Qed.

(** Every sextet is read back from its letter. *)
Lemma charSextet_sextetChar (n : N) :
  (n < 64)%N -> charSextet (sextetChar n) = Some n.
Proof.
  intros Hn.
  pose proof (proj1 (forallb_forall _ _) sextet_table (N.to_nat n)) as H.
  cbv beta in H. rewrite N2Nat.id in H.
  destruct (charSextet (sextetChar n)) as [m|].
  - f_equal. apply N.eqb_eq, H, in_seq. lia.
  - discriminate H. apply in_seq. lia.
Qed.

(** Linear arithmetic with the quotients and remainders of divisions by
    constants. *)
Ltac div_lia := zify; Z.to_euclidean_division_equations; lia.

Lemma decode4_encode3 (a b c : ascii) :
  let n := (N_of_ascii a * 65536 + N_of_ascii b * 256 + N_of_ascii c)%N in
  decode4 (n / 262144) ((n / 4096) mod 64) ((n / 64) mod 64) (n mod 64)
  = [a; b; c].
Proof.
  intros n. unfold decode4.
  pose proof (N_ascii_bounded a) as Ha.
  pose proof (N_ascii_bounded b) as Hb.
  pose proof (N_ascii_bounded c) as Hc.
  replace ((((n / 262144 * 64 + (n / 4096) mod 64) * 64
             + (n / 64) mod 64) * 64 + n mod 64))%N with n by (subst n; div_lia).
  replace (n / 65536)%N with (N_of_ascii a) by (subst n; div_lia).
  replace ((n / 256) mod 256)%N with (N_of_ascii b) by (subst n; div_lia).
  replace (n mod 256)%N with (N_of_ascii c) by (subst n; div_lia).
  now rewrite !ascii_N_embedding.
Qed.

Lemma decode3_encode2 (a b : ascii) :
  let n := (N_of_ascii a * 1024 + N_of_ascii b * 4)%N in
  decode3 (n / 4096) ((n / 64) mod 64) (n mod 64) = [a; b].
Proof.
  intros n. unfold decode3.
  pose proof (N_ascii_bounded a) as Ha.
  pose proof (N_ascii_bounded b) as Hb.
  replace (((n / 4096 * 64 + (n / 64) mod 64) * 64 + n mod 64))%N
    with n by (subst n; div_lia).
  replace (n / 1024)%N with (N_of_ascii a) by (subst n; div_lia).
  replace ((n / 4) mod 256)%N with (N_of_ascii b) by (subst n; div_lia).
  now rewrite !ascii_N_embedding.
Qed.

Lemma decode2_encode1 (a : ascii) :
  let n := (N_of_ascii a * 16)%N in
  decode2 (n / 64) (n mod 64) = [a].
Proof.
  intros n. unfold decode2.
  pose proof (N_ascii_bounded a) as Ha.
  replace (n / 64 * 64 + n mod 64)%N with n by (subst n; div_lia).
  replace (n / 16)%N with (N_of_ascii a) by (subst n; div_lia).
  now rewrite !ascii_N_embedding.
Qed.

Lemma fromBase64url_group (c0 c1 c2 c3 : ascii) (rest : list ascii) :
  fromBase64url (c0 :: c1 :: c2 :: c3 :: rest) =
  match charSextet c0, charSextet c1, charSextet c2, charSextet c3,
        fromBase64url rest with
  | Some s0, Some s1, Some s2, Some s3, Some bytes =>
      Some (decode4 s0 s1 s2 s3 ++ bytes)
  | _, _, _, _, _ => None
  end.
Proof. reflexivity. Qed.

Lemma fromBase64url_toBase64url_bounded (k : nat) (bytes : list ascii) :
  (List.length bytes <= k)%nat ->
  fromBase64url (toBase64url bytes) = Some bytes.
Proof.
  revert bytes.
  induction k as [k IH] using (well_founded_induction lt_wf).
  intros bytes Hlen.
  destruct bytes as [|a [|b [|c rest]]].
  - reflexivity.
  - cbn [toBase64url encode1 fromBase64url].
    pose proof (N_ascii_bounded a).
    rewrite !charSextet_sextetChar by div_lia.
    now rewrite decode2_encode1.
  - cbn [toBase64url encode2 fromBase64url].
    pose proof (N_ascii_bounded a). pose proof (N_ascii_bounded b).
    rewrite !charSextet_sextetChar by div_lia.
    now rewrite decode3_encode2.
  - cbn [toBase64url encode3 app]. rewrite fromBase64url_group.
    pose proof (N_ascii_bounded a). pose proof (N_ascii_bounded b).
    pose proof (N_ascii_bounded c).
    rewrite !charSextet_sextetChar by div_lia.
    cbn [List.length] in Hlen.
    rewrite (IH (List.length rest)) by lia.
    now rewrite decode4_encode3.
Qed.

(** The base64 text of any bytes decodes to these bytes. *)
Lemma fromBase64url_toBase64url (bytes : list ascii) :
  fromBase64url (toBase64url bytes) = Some bytes.
Proof. now apply (fromBase64url_toBase64url_bounded (List.length bytes)). Qed.

Lemma sextetChar_in_alphabet (n : N) : In (sextetChar n) alphabet.
Proof.
  unfold sextetChar.
  destruct (Nat.lt_ge_cases (N.to_nat n) (List.length alphabet)) as [H|H].
  - now apply nth_In.
  - rewrite nth_overflow by exact H. now left.
Qed.

(** The base64 text only has letters of the URL-safe alphabet. *)
Lemma toBase64url_alphabet (bytes : list ascii) :
  Forall (fun c => In c alphabet) (toBase64url bytes).
Proof.
  induction bytes as [bytes IH]
    using (well_founded_induction
             (Wf_nat.well_founded_ltof _ (@List.length ascii))).
  destruct bytes as [|a [|b [|c rest]]]; cbn [toBase64url].
  - constructor.
  - unfold encode1. repeat (apply Forall_cons;
      [apply sextetChar_in_alphabet|]). apply Forall_nil.
  - unfold encode2. repeat (apply Forall_cons;
      [apply sextetChar_in_alphabet|]). apply Forall_nil.
  - apply Forall_app. split.
    + unfold encode3. repeat (apply Forall_cons;
        [apply sextetChar_in_alphabet|]). apply Forall_nil.
    + apply IH. unfold Wf_nat.ltof. cbn. lia.
Qed.

Lemma encodeCursor_url_safe (position : CursorObject) :
  Forall (fun c => In c alphabet)
    (list_ascii_of_string (encodeCursor position)).
Proof.
  unfold encodeCursor. rewrite list_ascii_of_string_of_list_ascii.
  apply toBase64url_alphabet.
Qed.

(** C8: decoding the encoding of a position gives the position back,
    whatever fields and values it holds. *)
Theorem decodeCursor_encodeCursor (position : CursorObject) :
  decodeCursor (encodeCursor position) = Some position.
Proof.
  unfold decodeCursor, encodeCursor.
  rewrite list_ascii_of_string_of_list_ascii, fromBase64url_toBase64url.
  rewrite string_of_list_ascii_of_string. apply deserialize_serialize.
Qed.

End CodecFacts.

(** ** The calls of the example *)

Section ExampleFacts.

Import Example.

(** A position reads the field names of the sort and nothing else. *)
Lemma buildCursor_fields (document : Document) (s s' : Sort) :
  map fst s = map fst s' ->
  Utils.buildCursor document s = Utils.buildCursor document s'.
Proof.
  intros H. unfold Utils.buildCursor.
  rewrite <- (map_map fst (fun key => (key, field document key)) s).
  rewrite <- (map_map fst (fun key => (key, field document key)) s').
  now rewrite H.
Qed.

Lemma fields_invertSort (s : Sort) : map fst (Utils.invertSort s) = map fst s.
Proof. unfold Utils.invertSort. rewrite map_map. reflexivity. Qed.

(** The sort the normalizer returns is the caller's one, inverted on a
    backward call, followed by the tie-break field if it lacks it. *)
Lemma normalized_sort_shape (params : DirectionParams.t) (n : Normalized.t) :
  Utils.normalizeDirectionParams params = Some n ->
  exists tieBreak,
    Normalized.sort n =
    (if Normalized.paginatingBackwards n
     then Utils.invertSort (DirectionParams.sort params)
     else DirectionParams.sort params) ++ tieBreak.
Proof.
  unfold Utils.normalizeDirectionParams.
  set (isBackward := (_ && _)%bool).
  set (inverted := if isBackward then Utils.invertSort _ else _).
  assert (Hshape : forall d, exists tieBreak,
             Utils.withTieBreak d inverted = inverted ++ tieBreak).
  { intros d. unfold Utils.withTieBreak.
    destruct (Utils.hasField inverted Utils.tieBreakField).
    - exists []. now rewrite app_nil_r.
    - now exists [(Utils.tieBreakField, d)]. }
  destruct (Utils.firstOf (DirectionParams.first params) _) as [limit|];
    [|discriminate].
  destruct (Utils.firstOf (DirectionParams.after params) _) as [text|].
  - destruct (Utils.decodeCursor text) as [position|]; [|discriminate].
    intros [= <-]. cbn [Normalized.sort Normalized.paginatingBackwards].
    apply Hshape.
  - intros [= <-]. cbn [Normalized.sort Normalized.paginatingBackwards].
    apply Hshape.
Qed.

Lemma hasField_invertSort (s : Sort) (key : string) :
  Utils.hasField (Utils.invertSort s) key = Utils.hasField s key.
Proof.
  unfold Utils.hasField, Utils.invertSort.
  induction s as [|kd rest IH]; [reflexivity|].
  cbn [map existsb fst]. now rewrite IH.
Qed.

(** The tie-break field, if any, comes after the fields of the sort,
    whatever its direction and that of the fields. *)
Lemma fields_withTieBreak_invertSort (d : Direction) (s : Sort) :
  map fst (Utils.withTieBreak d (Utils.invertSort s))
  = map fst (Utils.withTieBreak Asc s).
Proof.
  unfold Utils.withTieBreak. rewrite hasField_invertSort.
  destruct (Utils.hasField s Utils.tieBreakField).
  - apply fields_invertSort.
  - rewrite !map_app, fields_invertSort. reflexivity.
Qed.

Lemma fields_withTieBreak (d : Direction) (s : Sort) :
  map fst (Utils.withTieBreak d s) = map fst (Utils.withTieBreak Asc s).
Proof.
  unfold Utils.withTieBreak.
  destruct (Utils.hasField s Utils.tieBreakField); [reflexivity|].
  now rewrite !map_app.
Qed.

(** The sort the normalizer returns has the fields of the caller's sort
    with its tie-break field, in that order, in both directions. *)
Lemma normalized_sort_fields (params : DirectionParams.t) (n : Normalized.t) :
  Utils.normalizeDirectionParams params = Some n ->
  map fst (Normalized.sort n)
  = map fst (Utils.withTieBreak Asc (DirectionParams.sort params)).
Proof.
  unfold Utils.normalizeDirectionParams.
  set (isBackward := (_ && _)%bool).
  assert (Hfields :
            map fst
              (Utils.withTieBreak (if isBackward then Desc else Asc)
                 (if isBackward
                  then Utils.invertSort (DirectionParams.sort params)
                  else DirectionParams.sort params))
            = map fst (Utils.withTieBreak Asc (DirectionParams.sort params))).
  { destruct isBackward.
    - apply fields_withTieBreak_invertSort.
    - reflexivity. }
  destruct (Utils.firstOf (DirectionParams.first params) _) as [limit|];
    [|discriminate].
  destruct (Utils.firstOf (DirectionParams.after params) _) as [text|].
  - destruct (Utils.decodeCursor text) as [position|]; [|discriminate].
    intros [= <-]. exact Hfields.
  - intros [= <-]. exact Hfields.
Qed.

(** C1, as the code has it: the cursor of every edge is the encoding of
    the position read from the node with the caller's original,
    non-inverted sort to which the tie-break field [_id] is added when it
    lacks it; this holds on forward and on backward calls alike, the
    inverted sort of a backward call having the same fields in the same
    order. *)
Theorem edge_cursor_from_caller_sort_with_tie_break
    (buildQueryFromCursor : Sort -> CursorObject -> Query)
    (encodeCursor : CursorObject -> string)
    (collection : Collection) (params : Params.t)
    (res : AggregatePaginatedResult) :
  result Utils.normalizeDirectionParams buildQueryFromCursor
    Utils.buildCursor encodeCursor collection params = Some res ->
  Forall
    (fun e =>
       Edge.cursor e =
       encodeCursor
         (Utils.buildCursor (Edge.node e)
            (Utils.withTieBreak Asc (nullish (Params.sort params) []))))
    (edges res).
Proof.
  intros Hres.
  destruct (result_inv _ _ _ _ _ _ _ Hres)
    as (n & count & all & Hn & _ & _ & ->).
  apply normalized_sort_fields in Hn. cbn [directionParams
    DirectionParams.sort] in Hn.
  rewrite edges_assembled. unfold buildEdges.
  apply Forall_map, Forall_forall. intros d _. cbn [Edge.cursor Edge.node].
  now rewrite (buildCursor_fields d _ _ Hn).
Qed.

(** C1 fails as stated: going backwards from person 3 with the caller's
    sort [{ name: 1 }], no edge has the cursor that encodes the position
    read with the caller's sort. *)
Lemma edge_cursor_not_from_original_sort :
  exists res,
    paginate people lastTwoBefore = Some res /\
    map Edge.node (edges res) = [person 4 "a"; person 1 "b"] /\
    Forall
      (fun e =>
         Edge.cursor e <>
         Utils.encodeCursor
           (Utils.buildCursor (Edge.node e)
              (nullish (Params.sort lastTwoBefore) [])))
      (edges res).
Proof.
  eexists. split; [vm_compute; reflexivity|].
  split; [reflexivity|].
  repeat constructor; vm_compute; discriminate.
Qed.

Ltac by_computation := vm_compute; reflexivity.

(** Runs [k] on the value [x] of an optional term that computes to
    [Some x]. *)
Ltac value_of t k :=
  let v := eval vm_compute in t in
  match v with Some ?x => k x end.

(** Going backwards from person 3 with the caller's sort [{ name: 1 }]:
    the data query is sorted by name and [_id], both descending, and the
    cursors are those of name and [_id] read in the caller's order. *)
Lemma edge_cursor_from_caller_sort_with_tie_break_witness :
  exists n res,
    normalize lastTwoBefore = Some n /\
    Normalized.paginatingBackwards n = true /\
    Normalized.sort n = [("name", Desc); ("_id", Desc)] /\
    paginate people lastTwoBefore = Some res /\
    map Edge.cursor (edges res) = [cursorOf 4 "a"; cursorOf 1 "b"] /\
    Forall
      (fun e =>
         Edge.cursor e =
         Utils.encodeCursor
           (Utils.buildCursor (Edge.node e) [("name", Asc); ("_id", Asc)]))
      (edges res).
Proof.
  value_of (normalize lastTwoBefore) ltac:(fun n =>
  value_of (paginate people lastTwoBefore) ltac:(fun r => exists n, r)).
  split; [by_computation|]. split; [reflexivity|]. split; [reflexivity|].
  split; [by_computation|]. split; [by_computation|].
  apply (edge_cursor_from_caller_sort_with_tie_break
           Utils.buildQueryFromCursor Utils.encodeCursor
           (Memory.collection people) lastTwoBefore).
  by_computation.
Defined.

(** C2 fails on the code.  Ten documents, all of which the caller's
    pipeline lets through, [skip = 2] and [first = 1]: the count request
    does not carry the pipeline as a query, it carries the query document
    [{ filters: {} }], which selects the documents whose field [filters]
    is an empty object; there is none, and the total count reported is
    zero, not ten. *)
Lemma totalCount_is_not_the_matching_count :
  exists res,
    paginate crowd firstOneSkipTwo = Some res /\
    Memory.matching (Params.pipeline firstOneSkipTwo) crowd = crowd /\
    List.length crowd = 10%nat /\
    requests Utils.normalizeDirectionParams Utils.buildQueryFromCursor
      Utils.buildCursor Utils.encodeCursor
      (Memory.collection crowd) firstOneSkipTwo =
    [ ReqCountDocuments (mkCountFilter []);
      ReqAggregate
        [ SMatch (QFields []); SSkip 2;
          SSort [("name", Asc); ("_id", Asc)]; SLimit 2 ] ] /\
    PageInfo.count (pageInfo res) = 1%N /\
    PageInfo.totalCount (pageInfo res) = 0%N.
Proof.
  value_of (paginate crowd firstOneSkipTwo) ltac:(fun r => exists r).
  repeat split; by_computation.
Qed.

(** The second page of two, going forwards from person 4: an [after]
    was supplied and a third document was fetched, so both flags are
    true.  The first page of ten: neither, so both are false.  The last
    two before person 3, going backwards: a third document was fetched
    and a [before] was supplied, so both flags are true. *)
Lemma pageInfo_flags_witness :
  (exists res,
     paginate people nextTwo = Some res /\
     PageInfo.hasPreviousPage (pageInfo res) = true /\
     PageInfo.hasNextPage (pageInfo res) = true) /\
  (exists res,
     paginate people firstTen = Some res /\
     PageInfo.hasPreviousPage (pageInfo res) = false /\
     PageInfo.hasNextPage (pageInfo res) = false) /\
  (exists res,
     paginate people lastTwoBefore = Some res /\
     PageInfo.hasPreviousPage (pageInfo res) = true /\
     PageInfo.hasNextPage (pageInfo res) = true).
Proof.
  split; [|split].
  - value_of (normalize nextTwo) ltac:(fun n =>
    value_of (fetch people nextTwo n) ltac:(fun a =>
    value_of (paginate people nextTwo) ltac:(fun r =>
      exists r; split; [by_computation|];
      destruct (pageInfo_flags
                  Utils.normalizeDirectionParams Utils.buildQueryFromCursor
                  Utils.buildCursor Utils.encodeCursor
                  (Memory.collection people) nextTwo n a r)
        as (_ & _ & Hforwards); [by_computation ..|];
      destruct (Hforwards eq_refl) as [Hprevious Hnext]))).
    split.
    + apply Hprevious. eexists. split; [reflexivity | discriminate].
    + apply Hnext. cbn. lia.
  - value_of (normalize firstTen) ltac:(fun n =>
    value_of (fetch people firstTen n) ltac:(fun a =>
    value_of (paginate people firstTen) ltac:(fun r =>
      exists r; split; [by_computation|];
      destruct (pageInfo_flags
                  Utils.normalizeDirectionParams Utils.buildQueryFromCursor
                  Utils.buildCursor Utils.encodeCursor
                  (Memory.collection people) firstTen n a r)
        as (_ & _ & Hforwards); [by_computation ..|];
      destruct (Hforwards eq_refl) as [Hprevious Hnext]))).
    split; apply not_true_is_false; intros H.
    + apply Hprevious in H. destruct H as (s & H & _). discriminate H.
    + apply Hnext in H. cbn in H. lia.
  - value_of (normalize lastTwoBefore) ltac:(fun n =>
    value_of (fetch people lastTwoBefore n) ltac:(fun a =>
    value_of (paginate people lastTwoBefore) ltac:(fun r =>
      exists r; split; [by_computation|];
      destruct (pageInfo_flags
                  Utils.normalizeDirectionParams Utils.buildQueryFromCursor
                  Utils.buildCursor Utils.encodeCursor
                  (Memory.collection people) lastTwoBefore n a r)
        as (_ & Hbackwards & _); [by_computation ..|];
      destruct (Hbackwards eq_refl) as [Hprevious Hnext]))).
    split.
    + apply Hprevious. cbn. lia.
    + apply Hnext. eexists. split; [reflexivity | discriminate].
Defined.

(** The first page of two out of five people: the third document
    fetched is the extra one. *)
Lemma overfetch_discarded_witness :
  exists n allDocuments res,
    normalize firstTwo = Some n /\
    fetch people firstTwo n = Some allDocuments /\
    paginate people firstTwo = Some res /\
    allDocuments = [person 2 "a"; person 4 "a"; person 1 "b"] /\
    exists extra,
      allDocuments = firstn 2 allDocuments ++ [extra] /\
      extraDocument allDocuments (Normalized.limit n) = Some extra /\
      hasMore allDocuments (Normalized.limit n) = true /\
      map Edge.node (edges res) = [person 2 "a"; person 4 "a"] /\
      PageInfo.count (pageInfo res) = 2%N /\
      forall other,
        assemble Utils.buildCursor Utils.encodeCursor firstTwo n
          (PageInfo.totalCount (pageInfo res))
          (firstn 2 allDocuments ++ [other]) = res.
Proof.
  do 3 eexists.
  split; [by_computation|]. split; [by_computation|].
  split; [by_computation|]. split; [reflexivity|].
  value_of (normalize firstTwo) ltac:(fun n =>
  value_of (fetch people firstTwo n) ltac:(fun a =>
  value_of (paginate people firstTwo) ltac:(fun r =>
    refine (overfetch_discarded
              Utils.normalizeDirectionParams Utils.buildQueryFromCursor
              Utils.buildCursor Utils.encodeCursor
              (Memory.collection people) firstTwo n a r _ _ _ _ _)))).
  - by_computation.
  - by_computation.
  - by_computation.
  - cbn. lia.
  - reflexivity.
Defined.

(** Going backwards from person 3: the two people before are fetched in
    the inverted order and come out in the caller's order. *)
Lemma edges_in_caller_order_witness :
  exists n allDocuments res,
    normalize lastTwoBefore = Some n /\
    fetch people lastTwoBefore n = Some allDocuments /\
    paginate people lastTwoBefore = Some res /\
    allDocuments = [person 1 "b"; person 4 "a"; person 2 "a"] /\
    map Edge.node (edges res) = [person 4 "a"; person 1 "b"] /\
    sortedBy Memory.compareValues byName (map Edge.node (edges res)) = true.
Proof.
  do 3 eexists.
  split; [by_computation|]. split; [by_computation|].
  split; [by_computation|]. split; [reflexivity|].
  split; [reflexivity|].
  refine (proj2 (edges_in_caller_order
                   Utils.normalizeDirectionParams Utils.buildQueryFromCursor
                   Utils.buildCursor Utils.encodeCursor
                   (Memory.collection people) lastTwoBefore _ _ _ _ _ _)
            Memory.compareValues [("_id", Desc)] _ _).
  - by_computation.
  - by_computation.
  - by_computation.
  - reflexivity.
  - by_computation.
Defined.

(** Going backwards from person 3: the requests issued. *)
Lemma data_query_stages_witness :
  exists n,
    normalize lastTwoBefore = Some n /\
    requests Utils.normalizeDirectionParams Utils.buildQueryFromCursor
      Utils.buildCursor Utils.encodeCursor
      (Memory.collection people) lastTwoBefore =
    [ ReqCountDocuments (mkCountFilter []);
      ReqAggregate
        [ SMatch
            (QOr [ [("name", CLt (VStr "c"))];
                   [("name", CEq (VStr "c")); ("_id", CLt (VNum 3))] ]);
          SSkip 0;
          SSort [("name", Desc); ("_id", Desc)];
          SLimit 3 ] ].
Proof.
  eexists. split; [by_computation|].
  destruct (data_query_stages
              Utils.normalizeDirectionParams Utils.buildQueryFromCursor
              Utils.buildCursor Utils.encodeCursor
              (Memory.collection people) lastTwoBefore _ eq_refl)
    as (q & Hissued & Hq & _).
  rewrite Hissued, (Hq _ eq_refl). reflexivity.
Defined.

(** Going backwards from person 2, before whom nobody comes. *)
Lemma empty_result_witness :
  exists n res,
    normalize lastTwoBeforeAll = Some n /\
    fetch people lastTwoBeforeAll n = Some [] /\
    paginate people lastTwoBeforeAll = Some res /\
    edges res = [] /\
    PageInfo.count (pageInfo res) = 0%N /\
    PageInfo.startCursor (pageInfo res) = None /\
    PageInfo.endCursor (pageInfo res) = None /\
    PageInfo.hasNextPage (pageInfo res) = true /\
    PageInfo.hasPreviousPage (pageInfo res) = false.
Proof.
  do 2 eexists.
  split; [by_computation|]. split; [by_computation|].
  split; [by_computation|].
  value_of (normalize lastTwoBeforeAll) ltac:(fun n =>
  value_of (paginate people lastTwoBeforeAll) ltac:(fun r =>
    refine (empty_result
              Utils.normalizeDirectionParams Utils.buildQueryFromCursor
              Utils.buildCursor Utils.encodeCursor
              (Memory.collection people) lastTwoBeforeAll n r _ _ _)));
    by_computation.
Defined.

(** C7 fails as stated: going backwards from person 2 the data query
    matches nobody and a [before] was supplied, yet [hasPreviousPage] is
    false; it is [hasNextPage] that tells that [before] was supplied. *)
Lemma empty_backward_previous_ignores_before :
  exists n res,
    normalize lastTwoBeforeAll = Some n /\
    Normalized.paginatingBackwards n = true /\
    fetch people lastTwoBeforeAll n = Some [] /\
    paginate people lastTwoBeforeAll = Some res /\
    BooleanString (Params.before lastTwoBeforeAll) = true /\
    PageInfo.hasPreviousPage (pageInfo res)
      <> BooleanString (Params.before lastTwoBeforeAll).
Proof.
  do 2 eexists.
  split; [by_computation|]. split; [reflexivity|].
  split; [by_computation|]. split; [by_computation|].
  split; [reflexivity|]. cbn. discriminate.
Qed.

(** A page of ten out of five people: nothing is left out. *)
Lemma probe_without_overfetch_witness :
  exists n allDocuments res,
    normalize firstTen = Some n /\
    fetch people firstTen n = Some allDocuments /\
    paginate people firstTen = Some res /\
    Z.of_nat (List.length allDocuments) <= Normalized.limit n /\
    extraDocument allDocuments (Normalized.limit n) = None /\
    hasMore allDocuments (Normalized.limit n) = false /\
    map Edge.node (edges res) = allDocuments /\
    PageInfo.count (pageInfo res) = 5%N.
Proof.
  do 3 eexists.
  split; [by_computation|]. split; [by_computation|].
  split; [by_computation|].
  split; [cbn; lia|].
  refine (proj1 (probe_without_overfetch
                   Utils.normalizeDirectionParams Utils.buildQueryFromCursor
                   Utils.buildCursor Utils.encodeCursor
                   (Memory.collection people) firstTen _ _ _ _ _ _) _).
  - by_computation.
  - by_computation.
  - by_computation.
  - cbn. lia.
Defined.

(** A page of one with a [skip] of two.  The skip comes before the sort:
    persons 1 and 2 are skipped and person 4 is returned; person 2 comes
    before person 4 in the caller's order, and [hasPreviousPage] is false. *)
Lemma forward_without_after_has_no_previous_witness :
  exists res,
    paginate people firstOneSkipTwo = Some res /\
    map Edge.node (edges res) = [person 4 "a"] /\
    sortLeb Memory.compareValues byName (person 2 "a") (person 4 "a")
      = true /\
    PageInfo.hasPreviousPage (pageInfo res) = false.
Proof.
  eexists. split; [by_computation|]. split; [reflexivity|].
  split; [reflexivity|].
  value_of (normalize firstOne) ltac:(fun n =>
    apply (forward_without_after_has_no_previous
             Utils.normalizeDirectionParams Utils.buildQueryFromCursor
             Utils.buildCursor Utils.encodeCursor
             (Memory.collection people) firstOne n (Some 2)));
    by_computation.
Defined.

End ExampleFacts.

(** ** More on the connection result *)

Lemma index_first {A : Type} (x : A) (rest : list A) :
  index (x :: rest) 0 = Some x.
Proof. reflexivity. Qed.

Lemma last_default {A : Type} (x : A) (rest : list A) (d d' : A) :
  last (x :: rest) d = last (x :: rest) d'.
Proof.
  revert x. induction rest as [|y rest IH]; intros x; [reflexivity|].
  change (last (y :: rest) d = last (y :: rest) d'). apply IH.
Qed.

Lemma nth_error_last {A : Type} (x : A) (rest : list A) :
  nth_error (x :: rest) (List.length rest) = Some (last rest x).
Proof.
  revert x. induction rest as [|y rest IH]; intros x; [reflexivity|].
  cbn [List.length nth_error]. rewrite IH. f_equal.
  destruct rest as [|z rest]; [reflexivity|].
  change (last (z :: rest) y = last (z :: rest) x). apply last_default.
Qed.

Lemma index_last {A : Type} (x : A) (rest : list A) :
  index (x :: rest) (Z.of_nat (List.length (x :: rest)) - 1)
  = Some (last rest x).
Proof.
  cbn [List.length]. rewrite index_nth_error by lia.
  replace (Z.to_nat (Z.of_nat (S (List.length rest)) - 1))
    with (List.length rest) by lia.
  apply nth_error_last.
Qed.

Lemma index_rev_first {A : Type} (l : list A) :
  index (rev l) 0 = index l (Z.of_nat (List.length l) - 1).
Proof.
  destruct l as [|x rest] using rev_ind; [reflexivity|].
  rewrite rev_app_distr. cbn [rev app]. rewrite index_first.
  rewrite length_app. cbn [List.length]. rewrite index_nth_error by lia.
  replace (Z.to_nat (Z.of_nat (List.length rest + 1) - 1))
    with (List.length rest) by lia.
  rewrite nth_error_app2 by lia. now rewrite Nat.sub_diag.
Qed.

Lemma index_rev_last {A : Type} (l : list A) :
  index (rev l) (Z.of_nat (List.length (rev l)) - 1) = index l 0.
Proof.
  rewrite <- (rev_involutive l) at 3. now rewrite index_rev_first.
Qed.

Lemma length_slice0 {A : Type} (l : list A) (e : Z) :
  0 <= e ->
  N.of_nat (List.length (slice0 l e)) = N.min (Z.to_N e) (N.of_nat (List.length l)).
Proof.
  intros He. rewrite slice0_firstn by exact He. rewrite length_firstn. lia.
Qed.

Lemma length_slice0_le {A : Type} (l : list A) (e : Z) :
  (List.length (slice0 l e) <= List.length l)%nat.
Proof.
  destruct (slice0_is_firstn l e) as [k ->]. rewrite length_firstn. lia.
Qed.

Lemma spreadFrom_values {A : Type} (i : nat) (l : list A) :
  map snd (spreadFrom i l) = l.
Proof.
  revert i. induction l as [|x rest IH]; intros i; [reflexivity|].
  cbn [spreadFrom map snd]. now rewrite IH.
Qed.

Lemma spreadFrom_keys {A : Type} (i : nat) (l : list A) :
  map fst (spreadFrom i l) = seq i (List.length l).
Proof.
  revert i. induction l as [|x rest IH]; intros i; [reflexivity|].
  cbn [spreadFrom map fst List.length seq]. now rewrite IH.
Qed.

Lemma index_map {A B : Type} (f : A -> B) (l : list A) (i : Z) :
  index (map f l) i = option_map f (index l i).
Proof.
  unfold index. destruct (i <? 0); [reflexivity | apply nth_error_map].
Qed.

Lemma index_firstn {A : Type} (l : list A) (k : nat) (i : Z) :
  i < Z.of_nat k -> index (firstn k l) i = index l i.
Proof.
  intros Hi. unfold index. destruct (Z.ltb_spec i 0); [reflexivity|].
  rewrite nth_error_firstn.
  destruct (Nat.ltb_spec (Z.to_nat i) k); [reflexivity | lia].
Qed.

Section ConnectionFacts.

Variable normalizeDirectionParams : DirectionParams.t -> option Normalized.t.
Variable buildQueryFromCursor : Sort -> CursorObject -> Query.
Variable buildCursor : Document -> Sort -> CursorObject.
Variable encodeCursor : CursorObject -> string.

Local Abbreviation run :=
  (result normalizeDirectionParams buildQueryFromCursor buildCursor
     encodeCursor).
Local Abbreviation issued :=
  (requests normalizeDirectionParams buildQueryFromCursor buildCursor
     encodeCursor).
Local Abbreviation stagesOf := (dataPipeline buildQueryFromCursor).
Local Abbreviation assembled := (assemble buildCursor encodeCursor).
Local Abbreviation edgesOf := (buildEdges buildCursor encodeCursor).
Local Abbreviation inverted :=
  (result_assembled normalizeDirectionParams buildQueryFromCursor
     buildCursor encodeCursor).

(** X1: when [normalizeDirectionParams] throws, the call rejects and no
    request has been issued to the collection. *)
Theorem normalizer_failure_rejects collection params :
  normalizeDirectionParams (directionParams params) = None ->
  run collection params = None /\ issued collection params = [].
Proof.
  intros Hn. unfold result, requests, aggregatePaginated.
  now rewrite Hn.
Qed.

(** X2: once the normalizer has returned, the call rejects exactly when
    the count or the data query rejects: there is no partial result. *)
Theorem query_failure_rejects collection params n :
  normalizeDirectionParams (directionParams params) = Some n ->
  (run collection params = None <->
   countDocuments collection (countFilter (Params.pipeline params)) = None \/
   aggregate collection
     (stagesOf (Params.pipeline params) (Params.skip params) n) = None).
Proof.
  intros Hn. unfold result, aggregatePaginated. rewrite Hn. cbn [snd].
  destruct (countDocuments _ _) as [count|];
    destruct (aggregate _ _) as [allDocuments|]; split; intros H;
    try discriminate H; try (destruct H as [H|H]; discriminate H);
    auto.
Qed.

(** X3: [pageInfo.count] is the number of edges; it never exceeds the
    number of documents fetched and, for a limit that is not negative,
    it is the smaller of the limit and the number of documents fetched. *)
Theorem count_is_number_of_edges collection params n allDocuments res :
  normalizeDirectionParams (directionParams params) = Some n ->
  aggregate collection
    (stagesOf (Params.pipeline params) (Params.skip params) n)
    = Some allDocuments ->
  run collection params = Some res ->
  PageInfo.count (pageInfo res) = N.of_nat (List.length (edges res)) /\
  (PageInfo.count (pageInfo res) <= N.of_nat (List.length allDocuments))%N /\
  (0 <= Normalized.limit n ->
   PageInfo.count (pageInfo res) =
   N.min (Z.to_N (Normalized.limit n))
     (N.of_nat (List.length allDocuments))).
Proof.
  intros Hn Ha Hres.
  destruct (inverted _ _ _ _ _ Hn Ha Hres) as (count & _ & ->).
  unfold assemble, buildEdges, desiredDocuments.
  cbn [edges pageInfo PageInfo.count]. rewrite length_map.
  set (limit := Normalized.limit n).
  assert (Hlen : List.length
                   (if Normalized.paginatingBackwards n
                    then rev (slice0 allDocuments limit)
                    else slice0 allDocuments limit)
                 = List.length (slice0 allDocuments limit)).
  { destruct (Normalized.paginatingBackwards n); now rewrite ?length_rev. }
  rewrite Hlen. split; [reflexivity|]. split.
  - pose proof (length_slice0_le allDocuments limit). lia.
  - apply length_slice0.
Qed.

(** X4: [startCursor] and [endCursor] are the cursors of the first and
    of the last edge; they are [null] when there is no edge, and only
    then. *)
Theorem cursors_of_first_and_last_edge collection params res :
  run collection params = Some res ->
  (edges res = [] ->
   PageInfo.startCursor (pageInfo res) = None /\
   PageInfo.endCursor (pageInfo res) = None) /\
  (forall e rest,
     edges res = e :: rest ->
     PageInfo.startCursor (pageInfo res) = Some (Edge.cursor e) /\
     PageInfo.endCursor (pageInfo res) = Some (Edge.cursor (last rest e))).
Proof.
  intros Hres.
  destruct (result_inv _ _ _ _ _ _ _ Hres) as (n & count & all & _ & _ & _ & ->).
  unfold assemble. cbn [edges pageInfo PageInfo.startCursor PageInfo.endCursor].
  set (es := buildEdges _ _ _ _). split.
  - intros ->. split; reflexivity.
  - intros e rest ->. rewrite index_first, index_last. split; reflexivity.
Qed.

(** X5: a page that reports more documents in the direction of the scan
    is a full page: when [hasNextPage] of a forward call, or
    [hasPreviousPage] of a backward call, is true, the number of edges
    is the limit. *)
Theorem more_means_full_page collection params n res :
  normalizeDirectionParams (directionParams params) = Some n ->
  run collection params = Some res ->
  (if Normalized.paginatingBackwards n
   then PageInfo.hasPreviousPage (pageInfo res)
   else PageInfo.hasNextPage (pageInfo res)) = true ->
  Z.of_N (PageInfo.count (pageInfo res)) = Normalized.limit n /\
  Z.of_nat (List.length (edges res)) = Normalized.limit n.
Proof.
  intros Hn Hres.
  destruct (result_inv _ _ _ _ _ _ _ Hres) as (n' & count & all & Hn' & _ & _ & ->).
  rewrite Hn in Hn'. injection Hn' as <-.
  unfold assemble, buildEdges, desiredDocuments, hasMore, extraDocument.
  cbn [edges pageInfo PageInfo.count PageInfo.hasPreviousPage
       PageInfo.hasNextPage].
  rewrite length_map.
  set (limit := Normalized.limit n).
  intros Hmore.
  assert (Hprobe : exists x, index all limit = Some x).
  { apply BooleanObject_true.
    destruct (Normalized.paginatingBackwards n); exact Hmore. }
  destruct Hprobe as [x Hx].
  assert (Hrange : 0 <= limit < Z.of_nat (List.length all)).
  { destruct (Z_lt_ge_dec limit 0) as [Hneg|Hpos].
    - rewrite index_negative in Hx by exact Hneg. discriminate.
    - destruct (Z_le_gt_dec (Z.of_nat (List.length all)) limit) as [Hle|Hgt].
      + rewrite index_out_of_range in Hx by exact Hle. discriminate.
      + lia. }
  assert (Hlen : List.length
                   (if Normalized.paginatingBackwards n
                    then rev (slice0 all limit) else slice0 all limit)
                 = Z.to_nat limit).
  { rewrite slice0_firstn by lia.
    destruct (Normalized.paginatingBackwards n);
      rewrite ?length_rev, length_firstn; lia. }
  rewrite Hlen. lia.
Qed.

(** X6: a backward call and a forward call for which the normalizer
    returns the same limit, cursor and sort issue the same data query,
    and the backward result is the forward one turned round: the edges
    are reversed, [startCursor] and [endCursor] change places, and
    [hasPreviousPage] of the backward call is [hasNextPage] of the
    forward one. *)
Theorem backward_is_forward_reversed
    collection forwards backwards n n' res res' :
  Params.pipeline backwards = Params.pipeline forwards ->
  Params.skip backwards = Params.skip forwards ->
  normalizeDirectionParams (directionParams forwards) = Some n ->
  normalizeDirectionParams (directionParams backwards) = Some n' ->
  Normalized.paginatingBackwards n = false ->
  Normalized.paginatingBackwards n' = true ->
  Normalized.limit n' = Normalized.limit n ->
  Normalized.cursor n' = Normalized.cursor n ->
  Normalized.sort n' = Normalized.sort n ->
  run collection forwards = Some res ->
  run collection backwards = Some res' ->
  issued collection backwards = issued collection forwards /\
  edges res' = rev (edges res) /\
  PageInfo.startCursor (pageInfo res') = PageInfo.endCursor (pageInfo res) /\
  PageInfo.endCursor (pageInfo res') = PageInfo.startCursor (pageInfo res) /\
  PageInfo.hasPreviousPage (pageInfo res')
    = PageInfo.hasNextPage (pageInfo res) /\
  PageInfo.count (pageInfo res') = PageInfo.count (pageInfo res) /\
  PageInfo.totalCount (pageInfo res') = PageInfo.totalCount (pageInfo res).
Proof.
  intros Hp Hs Hn Hn' Hfwd Hbwd Hlimit Hcursor Hsort Hres Hres'.
  assert (Hstages :
            stagesOf (Params.pipeline backwards) (Params.skip backwards) n'
            = stagesOf (Params.pipeline forwards) (Params.skip forwards) n).
  { unfold dataPipeline, matchStage.
    now rewrite Hp, Hs, Hlimit, Hcursor, Hsort. }
  split.
  { unfold requests, aggregatePaginated. rewrite Hn, Hn'. cbn [fst].
    now rewrite Hstages, Hp. }
  destruct (result_inv _ _ _ _ _ _ _ Hres)
    as (m & count & all & Hm & Hc & Ha & ->).
  destruct (result_inv _ _ _ _ _ _ _ Hres')
    as (m' & count' & all' & Hm' & Hc' & Ha' & ->).
  rewrite Hn in Hm. injection Hm as <-.
  rewrite Hn' in Hm'. injection Hm' as <-.
  rewrite Hstages, Ha in Ha'. injection Ha' as <-.
  rewrite Hp, Hc in Hc'. injection Hc' as <-.
  unfold assemble, desiredDocuments.
  cbn [edges pageInfo PageInfo.startCursor PageInfo.endCursor
       PageInfo.hasPreviousPage PageInfo.hasNextPage PageInfo.count
       PageInfo.totalCount].
  rewrite Hfwd, Hbwd, Hlimit, Hsort.
  assert (Hedges : forall documents sort,
             edgesOf (rev documents) sort = rev (edgesOf documents sort)).
  { intros documents sort. unfold buildEdges. apply map_rev. }
  rewrite Hedges.
  repeat split.
  - now rewrite index_rev_first.
  - now rewrite index_rev_last.
  - now rewrite length_rev.
Qed.

(** X7: whatever the limit, the edges hold fetched documents only, from
    the start of the fetched list and in its order (in the opposite order
    on a backward call): the fetched list is the list of nodes, followed
    by the documents left out. *)
Theorem nodes_are_fetched_prefix collection params n allDocuments res :
  normalizeDirectionParams (directionParams params) = Some n ->
  aggregate collection
    (stagesOf (Params.pipeline params) (Params.skip params) n)
    = Some allDocuments ->
  run collection params = Some res ->
  exists leftOut,
    allDocuments =
    (if Normalized.paginatingBackwards n
     then rev (map Edge.node (edges res))
     else map Edge.node (edges res)) ++ leftOut.
Proof.
  intros Hn Ha Hres.
  destruct (inverted _ _ _ _ _ Hn Ha Hres) as (count & _ & ->).
  unfold assemble, buildEdges, desiredDocuments. cbn [edges].
  rewrite map_map. cbn [Edge.node]. rewrite map_id.
  destruct (slice0_is_firstn allDocuments (Normalized.limit n)) as [k ->].
  exists (skipn k allDocuments).
  destruct (Normalized.paginatingBackwards n);
    now rewrite ?rev_involutive, firstn_skipn.
Qed.

(** X9: the flag against the direction of the scan reads its argument as
    JavaScript does: on a forward call [hasPreviousPage] is true exactly
    when [after] is a string that is not empty, on a backward call
    [hasNextPage] is true exactly when [before] is one; an empty string
    counts as no cursor, and nothing the collection returns enters. *)
Theorem opposite_flag_reads_argument collection params n res :
  normalizeDirectionParams (directionParams params) = Some n ->
  run collection params = Some res ->
  (Normalized.paginatingBackwards n = false ->
   (PageInfo.hasPreviousPage (pageInfo res) = true <->
    exists s, Params.after params = Some s /\ s <> EmptyString)) /\
  (Normalized.paginatingBackwards n = true ->
   (PageInfo.hasNextPage (pageInfo res) = true <->
    exists s, Params.before params = Some s /\ s <> EmptyString)).
Proof.
  intros Hn Hres.
  destruct (result_inv _ _ _ _ _ _ _ Hres)
    as (n' & count & all & Hn' & _ & _ & ->).
  rewrite Hn in Hn'. injection Hn' as <-.
  cbn [pageInfo assemble PageInfo.hasPreviousPage PageInfo.hasNextPage].
  assert (Htruthy : forall o,
             BooleanString o = true <->
             exists s, o = Some s /\ s <> EmptyString).
  { intros [s|]; cbn [BooleanString]; split.
    - intros H. exists s. split; [reflexivity|].
      intros ->. discriminate H.
    - intros (s' & [= <-] & Hs).
      destruct (String.eqb_spec s EmptyString); [contradiction|reflexivity].
    - discriminate.
    - intros (s' & H & _). discriminate H. }
  split; intros ->; apply Htruthy.
Qed.

(** X10: the count query only feeds [totalCount]: two collections that
    answer the data query alike give the same edges, count, cursors and
    flags, whatever they answer to the count. *)
Theorem count_only_feeds_totalCount
    collection collection' params n res res' :
  normalizeDirectionParams (directionParams params) = Some n ->
  aggregate collection'
    (stagesOf (Params.pipeline params) (Params.skip params) n)
  = aggregate collection
      (stagesOf (Params.pipeline params) (Params.skip params) n) ->
  run collection params = Some res ->
  run collection' params = Some res' ->
  edges res' = edges res /\
  PageInfo.count (pageInfo res') = PageInfo.count (pageInfo res) /\
  PageInfo.startCursor (pageInfo res')
    = PageInfo.startCursor (pageInfo res) /\
  PageInfo.endCursor (pageInfo res') = PageInfo.endCursor (pageInfo res) /\
  PageInfo.hasPreviousPage (pageInfo res')
    = PageInfo.hasPreviousPage (pageInfo res) /\
  PageInfo.hasNextPage (pageInfo res') = PageInfo.hasNextPage (pageInfo res).
Proof.
  intros Hn Hsame Hres Hres'.
  destruct (result_inv _ _ _ _ _ _ _ Hres)
    as (m & count & all & Hm & _ & Ha & ->).
  destruct (result_inv _ _ _ _ _ _ _ Hres')
    as (m' & count' & all' & Hm' & _ & Ha' & ->).
  rewrite Hn in Hm. injection Hm as <-.
  rewrite Hn in Hm'. injection Hm' as <-.
  rewrite Hsame, Ha in Ha'. injection Ha' as <-.
  repeat split; reflexivity.
Qed.

(** X12: for a positive limit, the cursors at the two ends of the page
    are those of the first fetched document and of the last visible one,
    the one at index [min(limit, fetched) - 1], never the extra one:
    [startCursor] then [endCursor] on a forward call, [endCursor] then
    [startCursor] on a backward call. *)
Theorem boundary_cursors_from_fetched
    collection params n allDocuments res :
  normalizeDirectionParams (directionParams params) = Some n ->
  aggregate collection
    (stagesOf (Params.pipeline params) (Params.skip params) n)
    = Some allDocuments ->
  run collection params = Some res ->
  0 < Normalized.limit n ->
  let cursorOf document :=
    encodeCursor (buildCursor document (Normalized.sort n)) in
  let near := option_map cursorOf (index allDocuments 0) in
  let far :=
    option_map cursorOf
      (index allDocuments
         (Z.min (Normalized.limit n) (Z.of_nat (List.length allDocuments))
          - 1)) in
  PageInfo.startCursor (pageInfo res) =
    (if Normalized.paginatingBackwards n then far else near) /\
  PageInfo.endCursor (pageInfo res) =
    (if Normalized.paginatingBackwards n then near else far).
Proof.
  intros Hn Ha Hres Hlimit cursorOf near far.
  destruct (inverted _ _ _ _ _ Hn Ha Hres) as (count & _ & ->).
  unfold assemble, desiredDocuments.
  cbn [pageInfo PageInfo.startCursor PageInfo.endCursor].
  set (limit := Normalized.limit n) in *.
  rewrite slice0_firstn by lia.
  set (visible := firstn (Z.to_nat limit) allDocuments).
  assert (Hlen : Z.of_nat (List.length visible)
                 = Z.min limit (Z.of_nat (List.length allDocuments))).
  { unfold visible. rewrite length_firstn. lia. }
  assert (Hnear : index visible 0 = index allDocuments 0).
  { apply index_firstn. lia. }
  assert (Hfar : index visible (Z.of_nat (List.length visible) - 1)
                 = index allDocuments
                     (Z.min limit (Z.of_nat (List.length allDocuments)) - 1)).
  { rewrite Hlen. apply index_firstn. lia. }
  assert (Hcursor : forall documents i,
             option_map Edge.cursor
               (index (edgesOf documents (Normalized.sort n)) i)
             = option_map cursorOf (index documents i)).
  { intros documents i. unfold buildEdges. rewrite index_map.
    now destruct (index documents i). }
  assert (Hsize : forall documents,
             List.length (edgesOf documents (Normalized.sort n))
             = List.length documents).
  { intros documents. unfold buildEdges. apply length_map. }
  rewrite !Hsize, !Hcursor.
  destruct (Normalized.paginatingBackwards n).
  - rewrite index_rev_first, index_rev_last, Hnear, Hfar. split; reflexivity.
  - rewrite Hnear, Hfar. split; reflexivity.
Qed.

End ConnectionFacts.

(** X11: the count filter lists the stages of the pipeline under the
    indices 0, 1, 2, ... in their order, so that it holds the pipeline
    and nothing else, and two pipelines with the same filter are the
    same. *)
Theorem countFilter_lists_pipeline (pipeline : list Stage) :
  map snd (filters (countFilter pipeline)) = pipeline /\
  map fst (filters (countFilter pipeline)) = seq 0 (List.length pipeline) /\
  forall pipeline',
    countFilter pipeline' = countFilter pipeline -> pipeline' = pipeline.
Proof.
  unfold countFilter, spread. cbn [filters].
  split; [apply spreadFrom_values|]. split; [apply spreadFrom_keys|].
  intros pipeline' [= H].
  apply (f_equal (map snd)) in H. now rewrite !spreadFrom_values in H.
Qed.

(** ** More calls of the example *)

Section CornerFacts.

Import Example Corner.

Ltac by_computation := vm_compute; reflexivity.

Ltac value_of t k :=
  let v := eval vm_compute in t in
  match v with Some ?x => k x end.

(** Runs [k] on what the normalizer, the data query and the call give
    for [params] on the collection of [documents] held in memory. *)
Ltac with_call documents params k :=
  value_of (normalize params) ltac:(fun n =>
  value_of (fetch documents params n) ltac:(fun a =>
  value_of (paginate documents params) ltac:(fun r => k n a r))).

Local Abbreviation on_utils theorem :=
  (theorem Utils.normalizeDirectionParams Utils.buildQueryFromCursor
     Utils.buildCursor Utils.encodeCursor).

(** A cursor that is not a base64 text. *)
Lemma normalizer_failure_rejects_witness :
  normalize malformedAfter = None /\
  paginate people malformedAfter = None /\
  requests Utils.normalizeDirectionParams Utils.buildQueryFromCursor
    Utils.buildCursor Utils.encodeCursor
    (Memory.collection people) malformedAfter = [].
Proof.
  split; [by_computation|].
  apply (on_utils normalizer_failure_rejects). by_computation.
Defined.

(** A pipeline with a stage the collection rejects. *)
Lemma query_failure_rejects_witness :
  exists n,
    normalize unknownStage = Some n /\
    fetch people unknownStage n = None /\
    paginate people unknownStage = None.
Proof.
  value_of (normalize unknownStage) ltac:(fun n => exists n).
  split; [by_computation|]. split; [by_computation|].
  refine (proj2 (on_utils query_failure_rejects
                   (Memory.collection people) unknownStage _ _) _).
  - by_computation.
  - right. by_computation.
Defined.

(** The first page of two out of five people. *)
Lemma count_is_number_of_edges_witness :
  exists n allDocuments res,
    normalize firstTwo = Some n /\
    fetch people firstTwo n = Some allDocuments /\
    paginate people firstTwo = Some res /\
    PageInfo.count (pageInfo res) = 2%N /\
    PageInfo.count (pageInfo res) = N.of_nat (List.length (edges res)) /\
    (PageInfo.count (pageInfo res)
     <= N.of_nat (List.length allDocuments))%N /\
    (0 <= Normalized.limit n ->
     PageInfo.count (pageInfo res) =
     N.min (Z.to_N (Normalized.limit n))
       (N.of_nat (List.length allDocuments))).
Proof.
  with_call people firstTwo ltac:(fun n a r => exists n, a, r).
  split; [by_computation|]. split; [by_computation|].
  split; [by_computation|]. split; [reflexivity|].
  apply (on_utils count_is_number_of_edges (Memory.collection people)
           firstTwo); by_computation.
Defined.

Lemma cursors_of_first_and_last_edge_witness :
  exists res,
    paginate people firstTwo = Some res /\
    PageInfo.startCursor (pageInfo res) = Some (cursorOf 2 "a") /\
    PageInfo.endCursor (pageInfo res) = Some (cursorOf 4 "a").
Proof.
  value_of (paginate people firstTwo) ltac:(fun r =>
    exists r; split; [by_computation|];
    assert (H : paginate people firstTwo = Some r) by by_computation;
    destruct (proj2 (on_utils cursors_of_first_and_last_edge
                       (Memory.collection people) firstTwo r H)
                _ _ eq_refl) as [Hstart Hend];
    rewrite Hstart, Hend; split; by_computation).
Defined.

Lemma more_means_full_page_witness :
  exists n res,
    normalize firstTwo = Some n /\
    paginate people firstTwo = Some res /\
    PageInfo.hasNextPage (pageInfo res) = true /\
    Z.of_N (PageInfo.count (pageInfo res)) = Normalized.limit n /\
    Z.of_nat (List.length (edges res)) = Normalized.limit n.
Proof.
  with_call people firstTwo ltac:(fun n a r => exists n, r).
  split; [by_computation|]. split; [by_computation|].
  split; [reflexivity|].
  apply (on_utils more_means_full_page (Memory.collection people)
           firstTwo); by_computation.
Defined.

(** The last two people before person 3 by name, and the first two after
    person 3 by name descending. *)
Lemma backward_is_forward_reversed_witness :
  exists res res',
    paginate people nextTwoDescending = Some res /\
    paginate people lastTwoBefore = Some res' /\
    map Edge.node (edges res) = [person 1 "b"; person 4 "a"] /\
    map Edge.node (edges res') = [person 4 "a"; person 1 "b"] /\
    edges res' = rev (edges res) /\
    PageInfo.startCursor (pageInfo res') = PageInfo.endCursor (pageInfo res) /\
    PageInfo.endCursor (pageInfo res') = PageInfo.startCursor (pageInfo res) /\
    PageInfo.hasPreviousPage (pageInfo res')
      = PageInfo.hasNextPage (pageInfo res) /\
    PageInfo.count (pageInfo res') = PageInfo.count (pageInfo res) /\
    PageInfo.totalCount (pageInfo res')
      = PageInfo.totalCount (pageInfo res).
Proof.
  value_of (paginate people nextTwoDescending) ltac:(fun r => exists r).
  value_of (paginate people lastTwoBefore) ltac:(fun r => exists r).
  split; [by_computation|]. split; [by_computation|].
  split; [reflexivity|]. split; [reflexivity|].
  value_of (normalize nextTwoDescending) ltac:(fun n =>
  value_of (normalize lastTwoBefore) ltac:(fun n' =>
    refine (proj2 (on_utils backward_is_forward_reversed
                     (Memory.collection people)
                     nextTwoDescending lastTwoBefore n n' _ _
                     _ _ _ _ _ _ _ _ _ _ _)))); by_computation.
Defined.

Lemma nodes_are_fetched_prefix_witness :
  exists n allDocuments res,
    normalize lastTwoBefore = Some n /\
    fetch people lastTwoBefore n = Some allDocuments /\
    paginate people lastTwoBefore = Some res /\
    exists leftOut,
      allDocuments =
      (if Normalized.paginatingBackwards n
       then rev (map Edge.node (edges res))
       else map Edge.node (edges res)) ++ leftOut.
Proof.
  with_call people lastTwoBefore ltac:(fun n a r => exists n, a, r).
  split; [by_computation|]. split; [by_computation|].
  split; [by_computation|].
  apply (on_utils nodes_are_fetched_prefix (Memory.collection people)
           lastTwoBefore); by_computation.
Defined.

Lemma opposite_flag_reads_argument_witness :
  exists n res,
    normalize nextTwo = Some n /\
    paginate people nextTwo = Some res /\
    Normalized.paginatingBackwards n = false /\
    (PageInfo.hasPreviousPage (pageInfo res) = true <->
     exists s, Params.after nextTwo = Some s /\ s <> EmptyString).
Proof.
  with_call people nextTwo ltac:(fun n a r => exists n, r).
  split; [by_computation|]. split; [by_computation|].
  split; [reflexivity|].
  refine (proj1 (on_utils opposite_flag_reads_argument
                   (Memory.collection people) nextTwo _ _ _ _) _).
  - by_computation.
  - by_computation.
  - reflexivity.
Defined.

(** The collection of people held in memory, and one that answers a
    count of seven and the same three documents. *)
Lemma count_only_feeds_totalCount_witness :
  exists res res',
    paginate people firstTwo = Some res /\
    result Utils.normalizeDirectionParams Utils.buildQueryFromCursor
      Utils.buildCursor Utils.encodeCursor
      (answering 7 [person 2 "a"; person 4 "a"; person 1 "b"])
      firstTwo = Some res' /\
    PageInfo.totalCount (pageInfo res) = 0%N /\
    PageInfo.totalCount (pageInfo res') = 7%N /\
    edges res' = edges res /\
    PageInfo.count (pageInfo res') = PageInfo.count (pageInfo res) /\
    PageInfo.startCursor (pageInfo res')
      = PageInfo.startCursor (pageInfo res) /\
    PageInfo.endCursor (pageInfo res') = PageInfo.endCursor (pageInfo res) /\
    PageInfo.hasPreviousPage (pageInfo res')
      = PageInfo.hasPreviousPage (pageInfo res) /\
    PageInfo.hasNextPage (pageInfo res')
      = PageInfo.hasNextPage (pageInfo res).
Proof.
  value_of (paginate people firstTwo) ltac:(fun r => exists r).
  value_of (result Utils.normalizeDirectionParams Utils.buildQueryFromCursor
              Utils.buildCursor Utils.encodeCursor
              (answering 7 [person 2 "a"; person 4 "a"; person 1 "b"])
              firstTwo) ltac:(fun r => exists r).
  split; [by_computation|]. split; [by_computation|].
  split; [reflexivity|]. split; [reflexivity|].
  value_of (normalize firstTwo) ltac:(fun n =>
    apply (on_utils count_only_feeds_totalCount (Memory.collection people)
             (answering 7 [person 2 "a"; person 4 "a"; person 1 "b"])
             firstTwo n)); by_computation.
Defined.

(** Going backwards from person 3: persons 1, 4 and 2 are fetched;
    [endCursor] is that of person 1 and [startCursor] that of person 4,
    not that of person 2. *)
Lemma boundary_cursors_from_fetched_witness :
  exists n allDocuments res,
    normalize lastTwoBefore = Some n /\
    fetch people lastTwoBefore n = Some allDocuments /\
    paginate people lastTwoBefore = Some res /\
    allDocuments = [person 1 "b"; person 4 "a"; person 2 "a"] /\
    PageInfo.startCursor (pageInfo res) = Some (cursorOf 4 "a") /\
    PageInfo.endCursor (pageInfo res) = Some (cursorOf 1 "b").
Proof.
  with_call people lastTwoBefore ltac:(fun n a r => exists n, a, r).
  split; [by_computation|]. split; [by_computation|].
  split; [by_computation|]. split; [reflexivity|].
  with_call people lastTwoBefore ltac:(fun n a r =>
    refine (on_utils boundary_cursors_from_fetched
              (Memory.collection people) lastTwoBefore n a r _ _ _ _)).
  - by_computation.
  - by_computation.
  - by_computation.
  - cbn. lia.
Defined.

End CornerFacts.
